(** * Product catalog view: stock classification, filtering, pagination
      and synchronisation with the remote store

    A shallow embedding of [src/pages/Products.jsx] (the component
    [ProductManagement]) and the properties its specification states.

    Conventions of the embedding:
    - JavaScript numbers that hold counts, page numbers and indices are
      integers ([Z]); [Math.ceil (a / b)] is taken over the rationals.
    - A property that may be missing is an [option]; [None] stands for
      [undefined] and [null], which the code never tells apart.
    - [JSON.parse] belongs to the platform, so the definitions take the
      decoder as a parameter: [None] means it threw. *)

From Stdlib Require Import ZArith QArith Qround Lia Ascii String.
From stdpp Require Import base list strings pretty.

Open Scope Z_scope.

(** ** Strings as the code uses them *)

Module Js.

(** [c.toLowerCase()] on the ASCII letters. *)
Definition lower_ascii (c : ascii) : ascii :=
  let n := nat_of_ascii c in
  if ((65 <=? n)%nat && (n <=? 90)%nat)%bool then ascii_of_nat (n + 32) else c.

Fixpoint toLowerCase (s : string) : string :=
  match s with
  | EmptyString => EmptyString
  | String c rest => String (lower_ascii c) (toLowerCase rest)
  end.

(** [s.includes(sub)]: [sub] occurs in [s] at some position. *)
Fixpoint includes (s sub : string) : bool :=
  if String.prefix sub s then true
  else match s with
       | EmptyString => false
       | String _ rest => includes rest sub
       end.

(** Truthiness of a string: only the empty string is falsy. *)
Definition truthy (s : string) : bool := negb (String.eqb s "").

(** [xs.slice(start, end)] of [Array.prototype], for integer arguments:
    a negative index counts from the end, and both are clamped. *)
Definition slice {A : Type} (xs : list A) (start end_ : Z) : list A :=
  let len := Z.of_nat (length xs) in
  let k := if start <? 0 then Z.max (len + start) 0 else Z.min start len in
  let final := if end_ <? 0 then Z.max (len + end_) 0 else Z.min end_ len in
  take (Z.to_nat (final - k)) (drop (Z.to_nat k) xs).

(** [Math.ceil]. *)
Definition Math_ceil (x : Q) : Z := Qceiling x.

End Js.

(** ** Data model *)

(** What [alert_config] may hold, as far as [?.min_quantity] can tell:
    nothing, an object (kept as its [min_quantity], [None] when the object
    has none), a string (the serialised form), or any other decoded value
    (a number, a boolean, an array), which has no such property. *)
Inductive AlertConfig : Type :=
| Absent
| Structured (min_quantity : option Z)
| Raw (text : string)
| Scalar.

(** [product_index] is a number or a text; [toString] of an integer is its
    decimal writing, [pretty]. *)
Inductive IndexValue : Type :=
| IndexNumber (n : Z)
| IndexText (t : string).

(** The fields of a product that the logic reads (the two prices are only
    displayed). *)
Record Product : Type := mkProduct {
  id : Z;
  product_index : option IndexValue;
  name : option string;
  quantity : Z;
  alert_config : AlertConfig;
  description : option string;
  supplier_name : option string;
  category : option string
}.

(** [filters]; its [category] is named [filter_category] here, [category]
    being the field of the product. *)
Record Filters : Type := mkFilters {
  stock : string;
  filter_category : string;
  supplier : string
}.

(** The creation form, [newProduct]: every input is kept as typed, except
    the threshold, which the form stores as [parseInt(...) || 0]. *)
Record Draft : Type := mkDraft {
  draft_product_index : string;
  draft_name : string;
  draft_buying_price : string;
  draft_selling_price : string;
  draft_quantity : string;
  draft_min_quantity : Z;
  draft_description : string;
  draft_supplier_name : string;
  draft_category : string
}.

Definition blankDraft : Draft := mkDraft "" "" "" "" "" 5 "" "" "".

(** [alertConfig?.min_quantity]. *)
Definition min_quantity_of (alertConfig : AlertConfig) : option Z :=
  match alertConfig with
  | Structured m => m
  | Absent | Raw _ | Scalar => None
  end.

(** ** Stock classifier and filter pipeline *)

Section Catalog.

(** [JSON.parse]; [None] when it throws. *)
Variable JSON_parse : string -> option AlertConfig.

(** [getStockStatus], lines 185-200. The [match] on the decoded value is
    the [try]/[catch]: only [JSON.parse] can throw there. *)
Definition getStockStatus (product : Product) : string :=
  if quantity product =? 0 then "out"
  else
    match (match alert_config product with
           | Raw text => JSON_parse text
           | other => Some other
           end) with
    | Some alertConfig =>
        let lowStockThreshold := default 5 (min_quantity_of alertConfig) in
        if quantity product <=? lowStockThreshold then "low"
        else if quantity product <? 50 then "average"
        else "healthy"
    | None => "healthy"
    end.

(** The callback of the [stock === 'low'] filter, lines 72-82. *)
Definition isLowStock (product : Product) : bool :=
  match (match alert_config product with
         | Raw text => JSON_parse text
         | other => Some other
         end) with
  | Some alertConfig =>
      let lowStockThreshold := default 5 (min_quantity_of alertConfig) in
      (quantity product <=? lowStockThreshold) && (0 <? quantity product)
  | None => false
  end.

(** The callback of the search filter, lines 62-67. *)
Definition matchesSearch (searchTerm : string) (product : Product) : bool :=
  let lowerTerm := Js.toLowerCase searchTerm in
  match name product with
  | Some n => Js.truthy n && Js.includes (Js.toLowerCase n) lowerTerm
  | None => false
  end
  || match product_index product with
     | Some (IndexNumber n) => negb (n =? 0) && Js.includes (pretty n) searchTerm
     | Some (IndexText t) => Js.truthy t && Js.includes t searchTerm
     | None => false
     end
  || match description product with
     | Some d => Js.truthy d && Js.includes (Js.toLowerCase d) lowerTerm
     | None => false
     end
  || match supplier_name product with
     | Some s => Js.truthy s && Js.includes (Js.toLowerCase s) lowerTerm
     | None => false
     end.

(** [product.category === filters.category] and its supplier twin: a
    missing field equals no string. *)
Definition fieldIs (field : option string) (wanted : string) : bool :=
  match field with
  | Some v => String.eqb v wanted
  | None => false
  end.

(** The body of the filtering effect up to [setFilteredProducts], lines
    57-97: four stages, each narrowing [result]. *)
Definition applyFilters (products : list Product) (searchTerm : string)
    (filters : Filters) : list Product :=
  let result := products in
  let result :=
    if Js.truthy searchTerm
    then filter (fun product => matchesSearch searchTerm product) result
    else result in
  let result :=
    if String.eqb (stock filters) "low"
    then filter (fun product => isLowStock product) result
    else if String.eqb (stock filters) "out"
    then filter (fun product => quantity product =? 0) result
    else if String.eqb (stock filters) "average"
    then filter (fun product => (0 <? quantity product) && (quantity product <? 50)) result
    else result in
  let result :=
    if Js.truthy (filter_category filters) && negb (String.eqb (filter_category filters) "all")
    then filter (fun product => fieldIs (category product) (filter_category filters)) result
    else result in
  let result :=
    if Js.truthy (supplier filters) && negb (String.eqb (supplier filters) "all")
    then filter (fun product => fieldIs (supplier_name product) (supplier filters)) result
    else result in
  result.

End Catalog.

(** ** Component state *)

(** The [useState] cells of [ProductManagement], lines 10-35. *)
Record State : Type := mkState {
  products : list Product;
  filteredProducts : list Product;
  loading : bool;
  error : option string;
  currentPage : Z;
  productsPerPage : Z;
  searchTerm : string;
  filters : Filters;
  showCreateModal : bool;
  viewingProduct : option Product;
  editingProduct : option Product;
  newProduct : Draft
}.

Definition initialState : State :=
  {| products := []; filteredProducts := []; loading := true; error := None;
     currentPage := 1; productsPerPage := 10; searchTerm := "";
     filters := mkFilters "all" "all" "all"; showCreateModal := false;
     viewingProduct := None; editingProduct := None; newProduct := blankDraft |}.

(** A call of one of the state setters. [productsPerPage] has none. *)
Inductive SetState : Type :=
| setProducts (v : list Product)
| setFilteredProducts (v : list Product)
| setLoading (v : bool)
| setError (v : option string)
| setCurrentPage (v : Z)
| setSearchTerm (v : string)
| setFilters (v : Filters)
| setShowCreateModal (v : bool)
| setViewingProduct (v : option Product)
| setEditingProduct (v : option Product)
| setNewProduct (v : Draft).

Definition applySet (s : State) (u : SetState) : State :=
  let '(mkState ps fps ld er cp pp st fl sm vp ep np) := s in
  match u with
  | setProducts v => mkState v fps ld er cp pp st fl sm vp ep np
  | setFilteredProducts v => mkState ps v ld er cp pp st fl sm vp ep np
  | setLoading v => mkState ps fps v er cp pp st fl sm vp ep np
  | setError v => mkState ps fps ld v cp pp st fl sm vp ep np
  | setCurrentPage v => mkState ps fps ld er v pp st fl sm vp ep np
  | setSearchTerm v => mkState ps fps ld er cp pp v fl sm vp ep np
  | setFilters v => mkState ps fps ld er cp pp st v sm vp ep np
  | setShowCreateModal v => mkState ps fps ld er cp pp st fl v vp ep np
  | setViewingProduct v => mkState ps fps ld er cp pp st fl sm v ep np
  | setEditingProduct v => mkState ps fps ld er cp pp st fl sm vp v np
  | setNewProduct v => mkState ps fps ld er cp pp st fl sm vp ep v
  end.

(** The setter calls of one handler run are applied together. *)
Definition applySets (s : State) (us : list SetState) : State :=
  foldl applySet s us.

(** Whether a setter call changes a dependency of the filtering effect,
    [[products, searchTerm, filters]] (line 101). React compares with
    [Object.is]: every array and every filters object the handlers pass is
    freshly built, a search term is compared as a string. *)
Definition touchesDeps (s : State) (u : SetState) : bool :=
  match u with
  | setProducts _ => true
  | setFilters _ => true
  | setSearchTerm v => negb (String.eqb v (searchTerm s))
  | _ => false
  end.

(** ** Outcome of a request *)

(** The body of a response: [response.json()] fails with a message, or
    gives the wrapper the store sends, kept as the [data] it holds. *)
Inductive Body (A : Type) : Type :=
| NotJson (message : string)
| Json (data : A).
Arguments NotJson {A} message.
Arguments Json {A} data.

(** [await fetch(...)] followed by [await response.json()]: the request is
    rejected (no response at all), or a response arrives with its [ok] flag
    (status in 200-299) and a body, whose decoding may fail in turn. *)
Inductive Fetched (A : Type) : Type :=
| Rejected (message : string)
| Responded (ok : bool) (body : Body A).
Arguments Rejected {A} message.
Arguments Responded {A} ok body.

Section Component.

Variable JSON_parse : string -> option AlertConfig.

(** *** Values derived at each render, lines 104-107 *)

Definition indexOfLastProduct (s : State) : Z :=
  currentPage s * productsPerPage s.

Definition indexOfFirstProduct (s : State) : Z :=
  indexOfLastProduct s - productsPerPage s.

Definition currentProducts (s : State) : list Product :=
  Js.slice (filteredProducts s) (indexOfFirstProduct s) (indexOfLastProduct s).

Definition totalPages (s : State) : Z :=
  Js.Math_ceil (inject_Z (Z.of_nat (length (filteredProducts s)))
                / inject_Z (productsPerPage s)).

(** *** Effects and handlers: the setter calls each one makes *)

(** The filtering effect, lines 56-101. *)
Definition filterEffect (s : State) : list SetState :=
  [ setFilteredProducts (applyFilters JSON_parse (products s) (searchTerm s) (filters s));
    setCurrentPage 1 ].

(** [fetchProducts], lines 39-50. [response.ok] is not read. *)
Definition fetchProducts (r : Fetched (list Product)) : list SetState :=
  match r with
  | Responded _ (Json data) => [ setProducts data; setLoading false ]
  | Rejected _ | Responded _ (NotJson _) =>
      [ setError (Some "Failed to load products. Please try again later.");
        setLoading false ]
  end.

(** [paginate], line 110. *)
Definition paginate (pageNumber : Z) : list SetState :=
  [ setCurrentPage pageNumber ].

(** [handleCreateProduct], lines 113-140. *)
Definition handleCreateProduct (s : State) (r : Fetched Product) : list SetState :=
  match r with
  | Rejected message => [ setError (Some message) ]
  | Responded ok body =>
      if negb ok then [ setError (Some "Failed to create product") ]
      else match body with
           | NotJson message => [ setError (Some message) ]
           | Json data =>
               [ setProducts (data :: products s);
                 setShowCreateModal false;
                 setNewProduct blankDraft ]
           end
  end.

(** [handleUpdateProduct], lines 143-160. *)
Definition handleUpdateProduct (s : State) (productId : Z) (r : Fetched Product)
    : list SetState :=
  match r with
  | Rejected message => [ setError (Some message) ]
  | Responded ok body =>
      if negb ok then [ setError (Some "Failed to update product") ]
      else match body with
           | NotJson message => [ setError (Some message) ]
           | Json data =>
               [ setProducts (map (fun p => if id p =? productId then data else p)
                                  (products s));
                 setEditingProduct None ]
           end
  end.

(** [handleDeleteProduct], lines 163-177. [confirmed] is the answer to
    [window.confirm]; the body of the response is not read. *)
Definition handleDeleteProduct (s : State) (productId : Z) (confirmed : bool)
    (r : Fetched unit) : list SetState :=
  if negb confirmed then []
  else match r with
       | Rejected message => [ setError (Some message) ]
       | Responded ok _ =>
           if negb ok then [ setError (Some "Failed to delete product") ]
           else [ setProducts (filter (fun p => negb (id p =? productId)) (products s)) ]
       end.

(** *** Events *)

(** What can happen to the mounted component: a request settles, or the
    operator acts. Each event is handled to completion before the next
    one, so a handler sees the state it was started in. *)
Inductive Event : Type :=
| Load (r : Fetched (list Product))
| SetSearchTerm (t : string)
| SetFilters (f : Filters)
| SetPage (pageNumber : Z)
| Create (r : Fetched Product)
| Update (productId : Z) (r : Fetched Product)
| Delete (productId : Z) (confirmed : bool) (r : Fetched unit)
| OpenCreate
| CancelCreate
| EditDraft (d : Draft).

Definition handle (s : State) (e : Event) : list SetState :=
  match e with
  | Load r => fetchProducts r
  | SetSearchTerm t => [ setSearchTerm t ]
  | SetFilters f => [ setFilters f ]
  | SetPage pageNumber => paginate pageNumber
  | Create r => handleCreateProduct s r
  | Update productId r => handleUpdateProduct s productId r
  | Delete productId confirmed r => handleDeleteProduct s productId confirmed r
  | OpenCreate => [ setShowCreateModal true ]
  | CancelCreate => [ setShowCreateModal false ]
  | EditDraft d => [ setNewProduct d ]
  end.

(** The derived view is recomputed: the filtering effect runs on the
    committed state. *)
Definition recompute (s : State) : State := applySets s (filterEffect s).

(** One event: the handler's setter calls are committed, then the
    filtering effect runs if one of its dependencies changed. *)
Definition step (s : State) (e : Event) : State :=
  let us := handle s e in
  let s' := applySets s us in
  if existsb (touchesDeps s) us then recompute s' else s'.

(** The component once mounted: both effects have run, the request is
    still pending. *)
Definition mounted : State := recompute initialState.

Definition run (s : State) (es : list Event) : State := foldl step s es.

End Component.

(** ** A decoder to run the examples with *)

(** The theorems below hold for every decoder. To evaluate the definitions
    on concrete products, [Sample.decode] reads the texts the application
    itself produces for [alert_config], [{"min_quantity":N}] with [N] an
    integer literal, and the texts [null] and [{}]; it rejects every other
    text, among them all those that are not JSON. *)
Module Sample.

Definition quote : string := String (ascii_of_nat 34) EmptyString.

Fixpoint strip_prefix (pre s : string) : option string :=
  match pre, s with
  | EmptyString, _ => Some s
  | String a pre', String b s' =>
      if Ascii.eqb a b then strip_prefix pre' s' else None
  | String _ _, EmptyString => None
  end.

Definition digit (c : ascii) : option Z :=
  let n := nat_of_ascii c in
  if ((48 <=? n)%nat && (n <=? 57)%nat)%bool then Some (Z.of_nat (n - 48)) else None.

(** Digits up to the closing brace, which must end the text. *)
Fixpoint digits_then_brace (s : string) (acc : Z) (seen : bool) : option Z :=
  match s with
  | EmptyString => None
  | String c rest =>
      match digit c with
      | Some d => digits_then_brace rest (10 * acc + d) true
      | None =>
          if (Ascii.eqb c "}" && String.eqb rest "" && seen)%bool
          then Some acc else None
      end
  end.

(** An integer literal of JSON, with no leading zero, then the brace. *)
Definition integer_then_brace (s : string) : option Z :=
  let '(negative, s) :=
    match s with
    | String "-" rest => (true, rest)
    | _ => (false, s)
    end in
  match (match s with
         | String "0" rest => if String.eqb rest "}" then Some 0 else None
         | _ => digits_then_brace s 0 false
         end) with
  | Some n => Some (if negative : bool then - n else n)
  | None => None
  end.

Definition decode (text : string) : option AlertConfig :=
  if String.eqb text "null" then Some Absent
  else if String.eqb text "{}" then Some (Structured None)
  else match strip_prefix ("{" ++ quote ++ "min_quantity" ++ quote ++ ":") text with
       | Some rest =>
           match integer_then_brace rest with
           | Some n => Some (Structured (Some n))
           | None => None
           end
       | None => None
       end.

(** [JSON.stringify({ min_quantity: n })] for a small [n]. *)
Definition encode (n : Z) : string :=
  "{" ++ quote ++ "min_quantity" ++ quote ++ ":" ++ pretty n ++ "}".

Definition product (i q : Z) (a : AlertConfig) : Product :=
  mkProduct i None None q a None None None.

End Sample.

Example decode_encoded : Sample.decode (Sample.encode 12) = Some (Structured (Some 12)).
Proof. reflexivity. Qed.

Example decode_negative : Sample.decode (Sample.encode (-3)) = Some (Structured (Some (-3))).
Proof. reflexivity. Qed.

Example decode_not_json : Sample.decode "{min_quantity: 3" = None.
Proof. reflexivity. Qed.

Example decode_leading_zero : Sample.decode ("{" ++ Sample.quote ++ "min_quantity" ++ Sample.quote ++ ":05}") = None.
Proof. reflexivity. Qed.

(** ** The stock classifier *)

Example status_out : getStockStatus Sample.decode (Sample.product 1 0 Absent) = "out".
Proof. reflexivity. Qed.

Example status_low : getStockStatus Sample.decode (Sample.product 2 3 (Structured (Some 5))) = "low".
Proof. reflexivity. Qed.

Example status_low_encoded :
  getStockStatus Sample.decode (Sample.product 2 12 (Raw (Sample.encode 12))) = "low".
Proof. reflexivity. Qed.

Example status_average : getStockStatus Sample.decode (Sample.product 3 49 Absent) = "average".
Proof. reflexivity. Qed.

Example status_healthy : getStockStatus Sample.decode (Sample.product 3 80 Absent) = "healthy".
Proof. reflexivity. Qed.

Section ClassifierFacts.

Variable JSON_parse : string -> option AlertConfig.

(** The value [alertConfig] is bound to inside both [try] blocks; [None]
    when [JSON.parse] throws. *)
Definition decoded (product : Product) : option AlertConfig :=
  match alert_config product with
  | Raw text => JSON_parse text
  | other => Some other
  end.

Lemma getStockStatus_decoded product :
  getStockStatus JSON_parse product =
    if quantity product =? 0 then "out"
    else match decoded product with
         | Some alertConfig =>
             if quantity product <=? default 5 (min_quantity_of alertConfig) then "low"
             else if quantity product <? 50 then "average" else "healthy"
         | None => "healthy"
         end.
Proof. unfold getStockStatus, decoded. by destruct (alert_config product). Qed.

Lemma isLowStock_decoded product :
  isLowStock JSON_parse product =
    match decoded product with
    | Some alertConfig =>
        (quantity product <=? default 5 (min_quantity_of alertConfig))
        && (0 <? quantity product)
    | None => false
    end.
Proof. unfold isLowStock, decoded. by destruct (alert_config product). Qed.

Lemma decoded_not_raw product :
  (forall text, alert_config product <> Raw text) ->
  decoded product = Some (alert_config product).
Proof. unfold decoded. destruct (alert_config product); naive_solver. Qed.

End ClassifierFacts.

(** C1. For every product and every decoder, whatever [alert_config]
    holds (an object, a text that decodes or not, or nothing), the
    classifier answers [out] exactly when the quantity is 0. *)
Theorem getStockStatus_out_iff_zero :
  forall (JSON_parse : string -> option AlertConfig) (product : Product),
    getStockStatus JSON_parse product = "out" <-> quantity product = 0.
Proof.
  intros JSON_parse product. rewrite getStockStatus_decoded.
  destruct (Z.eqb_spec (quantity product) 0) as [Hz | Hnz].
  - split; auto.
  - split; [| contradiction].
    destruct (decoded JSON_parse product) as [alertConfig |]; [| discriminate].
    repeat case_match; discriminate.
Qed.

(** A text that does not decode, on a product with 3 in stock. *)
Definition undecodable : Product := Sample.product 7 3 (Raw "{min_quantity: 3").

(** C4, as stated, fails: on a text that does not decode the classifier
    answers [healthy] for a quantity of 3, not [low]. *)
Lemma getStockStatus_undecodable_not_low :
  0 < quantity undecodable /\ quantity undecodable <= 5 /\
  decoded Sample.decode undecodable = None /\
  getStockStatus Sample.decode undecodable = "healthy" /\
  getStockStatus Sample.decode undecodable <> "low".
Proof. repeat split; try reflexivity; discriminate. Qed.

(** C4, amended. For a product with a positive quantity: when the text of
    [alert_config] fails to decode the classifier answers [healthy]
    whatever the quantity; when decoding succeeds or is not needed and no
    [min_quantity] is found, the threshold is 5: [low] up to 5, [average]
    from 6 to 49, [healthy] from 50. *)
Theorem getStockStatus_without_threshold :
  forall (JSON_parse : string -> option AlertConfig) (product : Product),
    0 < quantity product ->
    (decoded JSON_parse product = None ->
       getStockStatus JSON_parse product = "healthy") /\
    (forall alertConfig,
       decoded JSON_parse product = Some alertConfig ->
       min_quantity_of alertConfig = None ->
       (quantity product <= 5 -> getStockStatus JSON_parse product = "low") /\
       (5 < quantity product < 50 -> getStockStatus JSON_parse product = "average") /\
       (50 <= quantity product -> getStockStatus JSON_parse product = "healthy")).
Proof.
  intros JSON_parse product Hpos. rewrite getStockStatus_decoded.
  destruct (Z.eqb_spec (quantity product) 0) as [Hz | _]; [lia |].
  split.
  - by intros ->.
  - intros alertConfig -> ->. cbn [default].
    destruct (Z.leb_spec (quantity product) 5), (Z.ltb_spec (quantity product) 50);
      repeat split; intros; first [reflexivity | lia].
Qed.

Lemma getStockStatus_without_threshold_witness :
  getStockStatus Sample.decode undecodable = "healthy" /\
  getStockStatus Sample.decode (Sample.product 8 4 (Structured None)) = "low".
Proof.
  split.
  - apply (getStockStatus_without_threshold Sample.decode undecodable);
      [vm_compute | ]; reflexivity.
  - refine (proj1 (proj2 (getStockStatus_without_threshold Sample.decode
              (Sample.product 8 4 (Structured None)) _) (Structured None) _ _) _);
      vm_compute; first [reflexivity | discriminate].
Defined.

Lemma isLowStock_status JSON_parse (product : Product) :
  0 <= quantity product ->
  isLowStock JSON_parse product = true <-> getStockStatus JSON_parse product = "low".
Proof.
  intros Hnat. rewrite getStockStatus_decoded, isLowStock_decoded.
  destruct (decoded JSON_parse product) as [alertConfig |].
  - set (lowStockThreshold := default 5 (min_quantity_of alertConfig)).
    destruct (Z.eqb_spec (quantity product) 0) as [Hz | Hnz],
             (Z.leb_spec (quantity product) lowStockThreshold),
             (Z.ltb_spec 0 (quantity product)),
             (Z.ltb_spec (quantity product) 50);
      cbn; split; intros; first [reflexivity | lia | discriminate].
  - destruct (Z.eqb_spec (quantity product) 0); split; intros; discriminate.
Qed.



(** With a negative quantity the two part: the classifier answers [low]
    and the callback does not pass the product. *)
Example negative_quantity_parts :
  getStockStatus Sample.decode (Sample.product 9 (-1) Absent) = "low" /\
  isLowStock Sample.decode (Sample.product 9 (-1) Absent) = false.
Proof. split; reflexivity. Qed.

(** ** The filter pipeline *)

Section PipelineFacts.

Variable JSON_parse : string -> option AlertConfig.

(** The four stages as one predicate: a product is kept when it passes
    every stage that is switched on. *)
Definition passesSearch (searchTerm : string) (product : Product) : bool :=
  if Js.truthy searchTerm then matchesSearch searchTerm product else true.

Definition passesStock (filters : Filters) (product : Product) : bool :=
  if String.eqb (stock filters) "low" then isLowStock JSON_parse product
  else if String.eqb (stock filters) "out" then quantity product =? 0
  else if String.eqb (stock filters) "average"
  then (0 <? quantity product) && (quantity product <? 50)
  else true.

Definition passesCategory (filters : Filters) (product : Product) : bool :=
  if Js.truthy (filter_category filters) && negb (String.eqb (filter_category filters) "all")
  then fieldIs (category product) (filter_category filters) else true.

Definition passesSupplier (filters : Filters) (product : Product) : bool :=
  if Js.truthy (supplier filters) && negb (String.eqb (supplier filters) "all")
  then fieldIs (supplier_name product) (supplier filters) else true.

Definition passes (searchTerm : string) (filters : Filters) (product : Product) : bool :=
  passesSearch searchTerm product && passesStock filters product
  && passesCategory filters product && passesSupplier filters product.

Lemma filter_always (l : list Product) : filter (fun _ : Product => true) l = l.
Proof. induction l as [| x l IH]; [done |]. rewrite filter_cons_True by done. by f_equal. Qed.

Lemma filter_bool_ext (f g : Product -> bool) (l : list Product) :
  (forall x, f x = g x) -> filter (fun x => f x) l = filter (fun x => g x) l.
Proof. intros Hfg. apply list_filter_iff. intros x. by rewrite Hfg. Qed.

Lemma filter_andb (f g : Product -> bool) (l : list Product) :
  filter (fun x => g x) (filter (fun x => f x) l) = filter (fun x => f x && g x) l.
Proof.
  rewrite list_filter_filter. apply list_filter_iff. intros x.
  rewrite andb_True. tauto.
Qed.

Lemma filter_twice (f : Product -> bool) (l : list Product) :
  filter (fun x => f x) (filter (fun x => f x) l) = filter (fun x => f x) l.
Proof. rewrite filter_andb. apply filter_bool_ext. intros x. by destruct (f x). Qed.

Lemma applyFilters_stages products searchTerm filters :
  applyFilters JSON_parse products searchTerm filters
  = filter (fun product => passesSupplier filters product)
      (filter (fun product => passesCategory filters product)
         (filter (fun product => passesStock filters product)
            (filter (fun product => passesSearch searchTerm product) products))).
Proof.
  unfold applyFilters, passesSearch, passesStock, passesCategory, passesSupplier.
  destruct (Js.truthy searchTerm);
    destruct (String.eqb (stock filters) "low");
    destruct (String.eqb (stock filters) "out");
    destruct (String.eqb (stock filters) "average");
    destruct (Js.truthy (filter_category filters)
              && negb (String.eqb (filter_category filters) "all"));
    destruct (Js.truthy (supplier filters)
              && negb (String.eqb (supplier filters) "all"));
    by rewrite ?filter_always.
Qed.

Lemma applyFilters_passes products searchTerm filters :
  applyFilters JSON_parse products searchTerm filters
  = filter (fun product => passes searchTerm filters product) products.
Proof.
  rewrite applyFilters_stages.
  rewrite (filter_andb (passesSearch searchTerm) (passesStock filters)).
  rewrite (filter_andb (fun p => passesSearch searchTerm p && passesStock filters p)
                       (passesCategory filters)).
  by rewrite (filter_andb (fun p => passesSearch searchTerm p && passesStock filters p
                                    && passesCategory filters p)
                          (passesSupplier filters)).
Qed.

End PipelineFacts.

(** C7. For every catalog and all criteria, what the pipeline keeps is a
    subsequence of the catalog in the catalog's order, and running the
    pipeline again on its own output with the same criteria changes
    nothing. *)
Theorem applyFilters_sublist_idempotent :
  forall (JSON_parse : string -> option AlertConfig) (catalog : list Product)
         (searchTerm : string) (filters : Filters),
    sublist (applyFilters JSON_parse catalog searchTerm filters) catalog /\
    applyFilters JSON_parse (applyFilters JSON_parse catalog searchTerm filters)
                 searchTerm filters
    = applyFilters JSON_parse catalog searchTerm filters.
Proof.
  intros JSON_parse catalog searchTerm filters.
  rewrite !applyFilters_passes. split.
  - apply sublist_filter.
  - apply filter_twice.
Qed.

(** The scenario of the specification: with [stock = low], of a product
    out of stock, one with 3 under a threshold of 5 and one with 80, only
    the second is kept. *)
Example low_filter_scenario :
  map id (applyFilters Sample.decode
            [ Sample.product 1 0 Absent;
              Sample.product 2 3 (Structured (Some 5));
              Sample.product 3 80 Absent ]
            "" (mkFilters "low" "all" "all"))
  = [2].
Proof. reflexivity. Qed.

(** The [low] stage keeps exactly the products the classifier calls [low],
    on a catalog of the data model. *)
Lemma low_stage_is_classifier JSON_parse (catalog : list Product) :
  Forall (fun product => 0 <= quantity product) catalog ->
  applyFilters JSON_parse catalog "" (mkFilters "low" "all" "all")
  = filter (fun product => getStockStatus JSON_parse product = "low") catalog.
Proof.
  intros Hq. rewrite applyFilters_passes.
  induction Hq as [| x l Hx _ IH]; [done |].
  rewrite !filter_cons, IH.
  assert (Is_true (passes JSON_parse "" (mkFilters "low" "all" "all") x)
          <-> getStockStatus JSON_parse x = "low") as Hiff.
  { unfold passes, passesSearch, passesStock, passesCategory, passesSupplier; cbn.
    rewrite !andb_true_r, Is_true_true.
    by apply isLowStock_status. }
  repeat case_decide; first [reflexivity | tauto].
Qed.





(** ** Pagination *)

Section PaginationFacts.

(** [Math.ceil (a / d)] is the least [k] with [a <= k * d]. *)
Lemma Math_ceil_div (a d : Z) :
  0 < d ->
  (Js.Math_ceil (inject_Z a / inject_Z d) - 1) * d < a
  <= Js.Math_ceil (inject_Z a / inject_Z d) * d.
Proof.
  intros Hd. destruct d as [| p | p]; try lia.
  unfold Js.Math_ceil, Qceiling, Qfloor, Qdiv, Qinv, Qmult, Qopp, inject_Z; simpl.
  rewrite Z.mul_1_r, Pos.mul_1_l.
  pose proof (Z.div_mod (- a) (Z.pos p) ltac:(lia)).
  pose proof (Z.mod_pos_bound (- a) (Z.pos p) ltac:(lia)).
  nia.
Qed.

Lemma totalPages_bounds (s : State) :
  0 < productsPerPage s ->
  (totalPages s - 1) * productsPerPage s
  < Z.of_nat (length (filteredProducts s))
  <= totalPages s * productsPerPage s.
Proof. intros Hpp. by apply Math_ceil_div. Qed.

Lemma totalPages_nonneg (s : State) :
  0 < productsPerPage s -> 0 <= totalPages s.
Proof. intros Hpp. pose proof (totalPages_bounds s Hpp). nia. Qed.

(** On a page from 1 on, [slice] takes the next [size] elements after
    the pages before it. *)
Lemma slice_page {A : Type} (xs : list A) (size page : Z) :
  0 < size -> 1 <= page ->
  Js.slice xs (page * size - size) (page * size)
  = take (Z.to_nat size) (drop (Z.to_nat ((page - 1) * size)) xs).
Proof.
  intros Hsize Hpage. unfold Js.slice.
  replace (page * size - size) with ((page - 1) * size) by lia.
  set (first := (page - 1) * size).
  assert (0 <= first) as Hfirst by (unfold first; nia).
  replace (page * size) with (first + size) by (unfold first; lia).
  destruct (Z.ltb_spec first 0) as [? | _]; [lia |].
  destruct (Z.ltb_spec (first + size) 0) as [? | _]; [lia |].
  destruct (Z.le_gt_cases (Z.of_nat (length xs)) first) as [Hout | Hin].
  - rewrite (Z.min_r first) by lia. rewrite (Z.min_r (first + size)) by lia.
    rewrite Z.sub_diag. cbn [Z.to_nat take].
    rewrite (drop_ge xs (Z.to_nat first)) by lia. by rewrite take_nil.
  - rewrite (Z.min_l first) by lia.
    destruct (Z.le_gt_cases (first + size) (Z.of_nat (length xs))) as [Hfull | Hlast].
    + rewrite Z.min_l by lia. by replace (first + size - first) with size by lia.
    + rewrite Z.min_r by lia.
      rewrite !take_ge; [done | rewrite length_drop; lia | rewrite length_drop; lia].
Qed.

(** Consecutive blocks of [n] elements, enough of them to cover the
    list, give the list back. *)
Lemma blocks_concat {A : Type} (n k : nat) (xs : list A) :
  (length xs <= k * n)%nat ->
  concat (map (fun i => take n (drop (i * n) xs)) (seq 0 k)) = xs.
Proof.
  revert xs. induction k as [| k IH]; intros xs Hlen.
  - destruct xs; [done | cbn in Hlen; lia].
  - rewrite <- cons_seq, <- fmap_S_seq. cbn [map concat].
    rewrite drop_0.
    change (@fmap list _ nat nat S (seq 0 k)) with (map S (seq 0 k)).
    rewrite map_map.
    rewrite (map_ext (fun i => take n (drop (S i * n) xs))
                     (fun i => take n (drop (i * n) (drop n xs)))).
    + rewrite IH; [apply take_drop | rewrite length_drop; lia].
    + intros i. by rewrite drop_drop.
Qed.

Lemma currentProducts_page (s : State) (page : Z) :
  0 < productsPerPage s -> 1 <= page ->
  currentProducts (applySet s (setCurrentPage page))
  = take (Z.to_nat (productsPerPage s))
         (drop (Z.to_nat ((page - 1) * productsPerPage s)) (filteredProducts s)).
Proof.
  intros Hpp Hpage. destruct s.
  unfold currentProducts, indexOfFirstProduct, indexOfLastProduct; cbn.
  by apply slice_page.
Qed.

End PaginationFacts.

(** The scenario of the specification: 23 kept products, pages of 10, page
    3 asked for: 3 pages, the third with 3 products. *)
Example pagination_scenario :
  let s := applySets initialState
             [ setFilteredProducts (map (fun i => Sample.product i 1 Absent) (seqZ 1 23));
               setCurrentPage 3 ] in
  totalPages s = 3 /\ map id (currentProducts s) = [21; 22; 23].
Proof. split; reflexivity. Qed.

(** C3, as stated, fails: with nothing kept the page count is 0, not 1. *)
Lemma totalPages_empty_is_zero :
  filteredProducts initialState = [] /\ productsPerPage initialState = 10 /\
  totalPages initialState = 0 /\ ~ (1 <= totalPages initialState).
Proof. repeat split; try reflexivity. vm_compute. intros H. by apply H. Qed.

(** C3, amended. For every kept sequence and every positive page size the
    page count is the ceiling of length over page size: 0 when nothing is
    kept, at least 1 otherwise; with nothing kept the slice of page 1 is
    still defined and has length 0. *)
Theorem totalPages_is_ceiling :
  forall s : State,
    0 < productsPerPage s ->
    (totalPages s - 1) * productsPerPage s
      < Z.of_nat (length (filteredProducts s))
      <= totalPages s * productsPerPage s
    /\ (filteredProducts s = [] ->
          totalPages s = 0
          /\ length (currentProducts (applySet s (setCurrentPage 1))) = 0%nat)
    /\ (filteredProducts s <> [] -> 1 <= totalPages s).
Proof.
  intros s Hpp. pose proof (totalPages_bounds s Hpp) as Hb.
  split; [exact Hb |]. split.
  - intros Hnil. rewrite Hnil in Hb. cbn in Hb. split; [nia |].
    rewrite currentProducts_page by lia. rewrite Hnil.
    by rewrite drop_nil, take_nil.
  - intros Hne. destruct (filteredProducts s); [done |]. cbn [length] in Hb. nia.
Qed.

Lemma totalPages_is_ceiling_witness :
  totalPages initialState = 0.
Proof.
  apply (totalPages_is_ceiling initialState); [vm_compute |]; reflexivity.
Defined.

(** C6. For every kept sequence and every positive page size, the slices
    of pages 1 to the page count, one after the other, are the kept
    sequence itself; the slice of page [p] is the block of positions from
    [(p - 1) * size] up to [p * size]. *)
Theorem page_slices_concat :
  forall s : State,
    0 < productsPerPage s ->
    concat (map (fun page => currentProducts (applySet s (setCurrentPage page)))
                (seqZ 1 (totalPages s)))
    = filteredProducts s
    /\ forall page, 1 <= page ->
         currentProducts (applySet s (setCurrentPage page))
         = take (Z.to_nat (productsPerPage s))
                (drop (Z.to_nat ((page - 1) * productsPerPage s)) (filteredProducts s)).
Proof.
  intros s Hpp. split; [| intros page Hpage; by apply currentProducts_page].
  pose proof (totalPages_bounds s Hpp) as Hb.
  pose proof (totalPages_nonneg s Hpp) as Hk.
  unfold seqZ.
  change (@fmap list _ nat Z) with (@map nat Z). rewrite map_map.
  rewrite (map_ext _ (fun i : nat =>
             take (Z.to_nat (productsPerPage s))
                  (drop (i * Z.to_nat (productsPerPage s)) (filteredProducts s)))).
  - apply blocks_concat. nia.
  - intros i. rewrite currentProducts_page by lia. do 2 f_equal. nia.
Qed.

Lemma page_slices_concat_witness :
  let s := applySet initialState
             (setFilteredProducts (map (fun i => Sample.product i 1 Absent) (seqZ 1 23))) in
  concat (map (fun page => currentProducts (applySet s (setCurrentPage page)))
              (seqZ 1 (totalPages s)))
  = filteredProducts s.
Proof.
  intros s. apply (page_slices_concat s). vm_compute. reflexivity.
Defined.

(** ** The state manager *)

Section StateFacts.

Variable JSON_parse : string -> option AlertConfig.

(** The dependencies of the filtering effect, as values. *)
Definition deps (s : State) : list Product * string * Filters :=
  (products s, searchTerm s, filters s).

Lemma recompute_view (s : State) :
  currentPage (recompute JSON_parse s) = 1
  /\ filteredProducts (recompute JSON_parse s)
     = applyFilters JSON_parse (products s) (searchTerm s) (filters s)
  /\ deps (recompute JSON_parse s) = deps s.
Proof. by destruct s. Qed.

Lemma recompute_rest (s : State) :
  error (recompute JSON_parse s) = error s
  /\ loading (recompute JSON_parse s) = loading s
  /\ showCreateModal (recompute JSON_parse s) = showCreateModal s
  /\ newProduct (recompute JSON_parse s) = newProduct s
  /\ productsPerPage (recompute JSON_parse s) = productsPerPage s.
Proof. by destruct s. Qed.

(** Setter calls that touch no dependency leave all three as they were. *)
Lemma untouched_deps (s0 : State) (us : list SetState) :
  forall s, searchTerm s = searchTerm s0 ->
    existsb (touchesDeps s0) us = false ->
    deps (applySets s us) = deps s.
Proof.
  induction us as [| u us IH]; intros s Hterm Hno; [done |].
  cbn in Hno. apply orb_false_elim in Hno as [Hu Hus].
  unfold applySets in *. cbn [foldl]. rewrite IH; [| | done].
  - destruct s, u; try done. cbn in *.
    apply negb_false_iff, String.eqb_eq in Hu. by subst.
  - destruct s, u; try done. cbn in *.
    apply negb_false_iff, String.eqb_eq in Hu. by subst.
Qed.

(** An event either reruns the filtering effect or leaves its
    dependencies alone. *)
Lemma step_cases (s : State) (e : Event) :
  step JSON_parse s e = recompute JSON_parse (applySets s (handle s e))
  \/ (step JSON_parse s e = applySets s (handle s e)
      /\ deps (step JSON_parse s e) = deps s).
Proof.
  unfold step.
  destruct (existsb (touchesDeps s) (handle s e)) eqn:Htouch; [by left | right].
  split; [done |]. by apply (untouched_deps s).
Qed.

Lemma step_SetPage (s : State) (pageNumber : Z) :
  step JSON_parse s (SetPage pageNumber) = applySet s (setCurrentPage pageNumber).
Proof. done. Qed.

Lemma step_Create_success (s : State) (data : Product) :
  step JSON_parse s (Create (Responded true (Json data)))
  = recompute JSON_parse
      (applySets s [ setProducts (data :: products s);
                     setShowCreateModal false;
                     setNewProduct blankDraft ]).
Proof. done. Qed.

Lemma step_Create_failure (s : State) (r : Fetched Product) :
  (forall data, r <> Responded true (Json data)) ->
  exists message, step JSON_parse s (Create r) = applySet s (setError (Some message))
    /\ (forall m, r = Rejected m -> message = m)
    /\ (forall body, r = Responded false body -> message = "Failed to create product").
Proof.
  intros Hfail. destruct r as [m | [|] [m | data]].
  - exists m. repeat split; congruence.
  - exists m. repeat split; congruence.
  - by destruct (Hfail data).
  - exists "Failed to create product". repeat split; congruence.
  - exists "Failed to create product". repeat split; congruence.
Qed.

Lemma step_Delete_success (s : State) (productId : Z) (body : Body unit) :
  step JSON_parse s (Delete productId true (Responded true body))
  = recompute JSON_parse
      (applySet s (setProducts (filter (fun p => negb (id p =? productId)) (products s)))).
Proof. done. Qed.

Lemma step_Load_response (s : State) (ok : bool) (data : list Product) :
  step JSON_parse s (Load (Responded ok (Json data)))
  = recompute JSON_parse (applySets s [ setProducts data; setLoading false ]).
Proof. done. Qed.

End StateFacts.

(** *** Loading *)

(** A response with a failure status whose body carries a collection. *)
Definition staleListing : Fetched (list Product) :=
  Responded false (Json [ Sample.product 1 4 Absent ]).

(** C2 fails on the code: [fetchProducts] never reads [response.ok], so a
    response with a failure status and a decodable body is taken as a
    success: the catalog is replaced by the body's [data], no error is
    set. *)
Theorem load_ignores_status :
  forall (JSON_parse : string -> option AlertConfig) (s : State) (data : list Product),
    let s' := step JSON_parse s (Load (Responded false (Json data))) in
    products s' = data /\ error s' = error s /\ loading s' = false
    /\ s' = step JSON_parse s (Load (Responded true (Json data))).
Proof. intros JSON_parse s data. by destruct s. Qed.

Example load_stale_listing :
  let s' := step Sample.decode (mounted Sample.decode) (Load staleListing) in
  map id (products s') = [1] /\ error s' = None /\ map id (filteredProducts s') = [1].
Proof. repeat split; reflexivity. Qed.

(** The sibling handlers do check the status. *)
Example create_checks_status :
  forall data,
    error (step Sample.decode (mounted Sample.decode) (Create (Responded false (Json data))))
    = Some "Failed to create product".
Proof. reflexivity. Qed.

(** The failures [fetchProducts] does catch: no response, or a body that
    is not JSON. *)
Lemma load_caught (JSON_parse : string -> option AlertConfig) (r : Fetched (list Product)) :
  (forall ok data, r <> Responded ok (Json data)) ->
  let s' := step JSON_parse (mounted JSON_parse) (Load r) in
  products s' = [] /\ loading s' = false
  /\ error s' = Some "Failed to load products. Please try again later.".
Proof.
  intros Hfail. destruct r as [m | ok [m | data]]; [done | done |].
  by destruct (Hfail ok data).
Qed.

(** *** Recomputation of the derived view *)

(** C8. After any event that changes the catalog, the search term or the
    filters, the derived view has been recomputed and the current page is
    1; an event that only sets the page leaves the kept sequence as it
    was. *)
Theorem deps_change_resets_page :
  forall (JSON_parse : string -> option AlertConfig) (s : State) (e : Event),
    let s' := step JSON_parse s e in
    ((products s' <> products s \/ searchTerm s' <> searchTerm s
      \/ filters s' <> filters s) ->
       currentPage s' = 1
       /\ filteredProducts s'
          = applyFilters JSON_parse (products s') (searchTerm s') (filters s'))
    /\ (forall pageNumber,
          e = SetPage pageNumber ->
          filteredProducts s' = filteredProducts s
          /\ currentPage s' = pageNumber /\ deps s' = deps s).
Proof.
  intros JSON_parse s e s'. subst s'. split.
  - intros Hchanged.
    destruct (step_cases JSON_parse s e) as [Hrun | [_ Hsame]].
    + destruct (recompute_view JSON_parse (applySets s (handle s e)))
        as (Hpage & Hview & Hdeps).
      rewrite <- Hrun in Hpage, Hview, Hdeps. split; [exact Hpage |].
      rewrite Hview. injection Hdeps as -> -> ->. reflexivity.
    + injection Hsame as Hp Ht Hf. tauto.
  - intros pageNumber ->. rewrite step_SetPage. by destruct s.
Qed.

Lemma deps_change_resets_page_witness :
  let s := run Sample.decode (mounted Sample.decode)
             [ Load (Responded true (Json (map (fun i => Sample.product i 1 Absent) (seqZ 1 23))));
               SetPage 3 ] in
  currentPage s = 3
  /\ currentPage (step Sample.decode s (SetFilters (mkFilters "out" "all" "all"))) = 1.
Proof.
  intros s. split; [reflexivity |].
  destruct (deps_change_resets_page Sample.decode s (SetFilters (mkFilters "out" "all" "all")))
    as [Hreset _].
  apply Hreset. right; right. vm_compute. discriminate.
Defined.

(** A filters object with the same content is a new object all the same:
    the effect runs and the page is reset. *)
Example same_filters_reset_page :
  let s := run Sample.decode (mounted Sample.decode)
             [ Load (Responded true (Json (map (fun i => Sample.product i 1 Absent) (seqZ 1 23))));
               SetPage 3 ] in
  currentPage (step Sample.decode s (SetFilters (filters s))) = 1
  /\ currentPage (step Sample.decode s (SetSearchTerm (searchTerm s))) = 3.
Proof. split; reflexivity. Qed.

(** *** Creation *)

(** C9. When a creation request fails (no response, a failure status, or
    a body that is not JSON) the catalog, the kept sequence and the page
    stay as they were, the error is set, the draft keeps its fields and
    the modal its state; on success the returned record is put in front of
    the catalog, the modal is closed and the draft is blank again; so the
    draft or the modal change only on success. *)
Theorem create_failure_keeps_form :
  forall (JSON_parse : string -> option AlertConfig) (s : State) (r : Fetched Product),
    let s' := step JSON_parse s (Create r) in
    ((forall data, r <> Responded true (Json data)) ->
       products s' = products s
       /\ filteredProducts s' = filteredProducts s
       /\ currentPage s' = currentPage s
       /\ is_Some (error s')
       /\ (forall m, r = Rejected m -> error s' = Some m)
       /\ (forall body, r = Responded false body ->
             error s' = Some "Failed to create product")
       /\ newProduct s' = newProduct s
       /\ showCreateModal s' = showCreateModal s)
    /\ (forall data, r = Responded true (Json data) ->
          products s' = data :: products s
          /\ showCreateModal s' = false
          /\ newProduct s' = blankDraft
          /\ error s' = error s)
    /\ ((newProduct s' <> newProduct s \/ showCreateModal s' <> showCreateModal s) ->
          exists data, r = Responded true (Json data)).
Proof.
  intros JSON_parse s r s'. subst s'.
  pose proof (step_Create_failure JSON_parse s r) as Hfailure.
  split; [| split].
  - intros Hfail. destruct (Hfailure Hfail) as (message & -> & Hm & Hb).
    destruct s; cbn. repeat split; try done.
    + intros m Hr. by rewrite (Hm m Hr).
    + intros body Hr. by rewrite (Hb body Hr).
  - intros data ->. rewrite step_Create_success. by destruct s.
  - intros Hchanged.
    destruct r as [m | [|] [m | data]]; try (by exists data);
      (destruct Hfailure as (message & Hstep & _); [intros d; discriminate |]);
      rewrite Hstep in Hchanged; destruct s; cbn in Hchanged; tauto.
Qed.

Lemma create_failure_keeps_form_witness :
  let s := run Sample.decode (mounted Sample.decode)
             [ OpenCreate; EditDraft (mkDraft "P-1" "Nails" "1" "2" "40" 5 "" "" "") ] in
  let s' := step Sample.decode s (Create (Rejected "Failed to fetch")) in
  showCreateModal s' = true /\ draft_name (newProduct s') = "Nails"
  /\ error s' = Some "Failed to fetch".
Proof.
  intros s s'.
  destruct (proj1 (create_failure_keeps_form Sample.decode s (Rejected "Failed to fetch")))
    as (_ & _ & _ & _ & Herr & _ & Hdraft & Hmodal); [intros data; discriminate |].
  fold s' in Herr, Hdraft, Hmodal.
  rewrite Hmodal, Hdraft. split; [reflexivity |]. split; [reflexivity |].
  by apply Herr.
Defined.

(** *** Deletion *)

(** Twenty-one products on pages of ten, the third page on screen. *)
Definition threePages : State :=
  run Sample.decode (mounted Sample.decode)
    [ Load (Responded true (Json (map (fun i => Sample.product i 1 Absent) (seqZ 1 21))));
      SetPage 3 ].

(** C10, as stated, fails in its second half: the only product of the last
    page is deleted, page 3 is left empty and the last page is now 2, but
    the current page becomes 1. *)
Lemma delete_last_page_goes_to_first :
  let s' := step Sample.decode threePages (Delete 21 true (Responded true (Json tt))) in
  currentPage threePages = totalPages threePages
  /\ map id (currentProducts threePages) = [21]
  /\ currentProducts (applySet s' (setCurrentPage 3)) = []
  /\ totalPages s' = 2
  /\ currentPage s' = 1
  /\ currentPage s' <> totalPages s'.
Proof. repeat split; try reflexivity. vm_compute. discriminate. Qed.

(** C10, amended. After a successful deletion the catalog holds no entry
    with that id and every other entry is kept in order; the derived view
    is recomputed from that catalog and the current page becomes 1,
    whichever page showed the deleted entry. *)
Theorem delete_success_removes_and_resets :
  forall (JSON_parse : string -> option AlertConfig) (s : State) (productId : Z)
         (body : Body unit),
    let s' := step JSON_parse s (Delete productId true (Responded true body)) in
    (forall p, p ∈ products s' -> id p <> productId)
    /\ (forall p, p ∈ products s' <-> p ∈ products s /\ id p <> productId)
    /\ sublist (products s') (products s)
    /\ filteredProducts s'
       = applyFilters JSON_parse (products s') (searchTerm s) (filters s)
    /\ currentPage s' = 1.
Proof.
  intros JSON_parse s productId body s'. subst s'. rewrite step_Delete_success.
  assert (forall p : Product, Is_true (negb (id p =? productId)) <-> id p <> productId)
    as Hne.
  { intros p. rewrite negb_True, Is_true_true, Z.eqb_eq. tauto. }
  destruct s; cbn. split; [| split; [| split; [| split]]].
  - intros p Hin. apply list_elem_of_filter in Hin as [Hp _]. by apply Hne.
  - intros p. rewrite list_elem_of_filter, Hne. tauto.
  - apply sublist_filter.
  - reflexivity.
  - reflexivity.
Qed.


(** * Further properties of the component *)

(** ** The classifier and its message *)

(** The object [getStockMessage] returns. *)
Record StockMessage : Type := mkStockMessage {
  text : string;
  class : string
}.

(** [getStockMessage], lines 203-215. *)
Definition getStockMessage (JSON_parse : string -> option AlertConfig)
    (product : Product) : StockMessage :=
  let status := getStockStatus JSON_parse product in
  if String.eqb status "out"
  then mkStockMessage "Out of stock" "bg-red-100 text-red-800"
  else if String.eqb status "low"
  then mkStockMessage "Low stock - Reorder now" "bg-yellow-100 text-yellow-800"
  else if String.eqb status "average"
  then mkStockMessage "Average stock - Consider restocking" "bg-blue-100 text-blue-800"
  else mkStockMessage "In stock" "bg-green-100 text-green-800".

(** Whether the details modal shows its stock banner, line 654. *)
Definition showsStockBanner (JSON_parse : string -> option AlertConfig)
    (product : Product) : bool :=
  negb (String.eqb (getStockStatus JSON_parse product) "healthy").

(** How pressing a status is: the order in which rising stock goes through
    them. *)
Definition urgency (status : string) : Z :=
  if String.eqb status "out" then 0
  else if String.eqb status "low" then 1
  else if String.eqb status "average" then 2
  else 3.

(** The same product with another [alert_config] or another quantity. *)
Definition withAlertConfig (product : Product) (a : AlertConfig) : Product :=
  mkProduct (id product) (product_index product) (name product) (quantity product)
            a (description product) (supplier_name product) (category product).

Definition withQuantity (product : Product) (q : Z) : Product :=
  mkProduct (id product) (product_index product) (name product) q
            (alert_config product) (description product) (supplier_name product)
            (category product).

Section ClassifierMore.

Variable JSON_parse : string -> option AlertConfig.

Lemma getStockStatus_range (product : Product) :
  getStockStatus JSON_parse product ∈ ["out"; "low"; "average"; "healthy"].
Proof.
  rewrite getStockStatus_decoded.
  repeat case_match; repeat constructor.
Qed.

Lemma decoded_withQuantity (product : Product) (q : Z) :
  decoded JSON_parse (withQuantity product q) = decoded JSON_parse product.
Proof. done. Qed.

End ClassifierMore.

(** X1. With the same [alert_config], more stock is never more pressing:
    between two quantities that are not negative, the status of the larger
    one comes no earlier in the order out, low, average, healthy. *)
Theorem getStockStatus_monotone :
  forall (JSON_parse : string -> option AlertConfig) (product : Product) (q1 q2 : Z),
    0 <= q1 -> q1 <= q2 ->
    urgency (getStockStatus JSON_parse (withQuantity product q1))
    <= urgency (getStockStatus JSON_parse (withQuantity product q2)).
Proof.
  intros JSON_parse product q1 q2 Hq1 Hle.
  rewrite !getStockStatus_decoded, !decoded_withQuantity. cbn [quantity withQuantity].
  destruct (decoded JSON_parse product) as [alertConfig |].
  - set (lowStockThreshold := default 5 (min_quantity_of alertConfig)).
    destruct (Z.eqb_spec q1 0), (Z.eqb_spec q2 0),
             (Z.leb_spec q1 lowStockThreshold), (Z.leb_spec q2 lowStockThreshold),
             (Z.ltb_spec q1 50), (Z.ltb_spec q2 50);
      cbn; lia.
  - destruct (Z.eqb_spec q1 0), (Z.eqb_spec q2 0); cbn; lia.
Qed.

Lemma getStockStatus_monotone_witness :
  urgency (getStockStatus Sample.decode
             (withQuantity (Sample.product 1 0 (Structured (Some 10))) 7))
  <= urgency (getStockStatus Sample.decode
                (withQuantity (Sample.product 1 0 (Structured (Some 10))) 30)).
Proof.
  apply (getStockStatus_monotone Sample.decode
           (Sample.product 1 0 (Structured (Some 10))) 7 30); lia.
Defined.

(** X2. A serialised [alert_config] classifies like the value it decodes
    to, provided that value is not a string again. *)
Theorem getStockStatus_serialised :
  forall (JSON_parse : string -> option AlertConfig) (product : Product)
         (serialised : string) (a : AlertConfig),
    JSON_parse serialised = Some a ->
    (forall inner, a <> Raw inner) ->
    getStockStatus JSON_parse (withAlertConfig product (Raw serialised))
    = getStockStatus JSON_parse (withAlertConfig product a)
    /\ isLowStock JSON_parse (withAlertConfig product (Raw serialised))
       = isLowStock JSON_parse (withAlertConfig product a).
Proof.
  intros JSON_parse product serialised a Hparse Hnot.
  rewrite !getStockStatus_decoded, !isLowStock_decoded.
  assert (decoded JSON_parse (withAlertConfig product (Raw serialised))
          = decoded JSON_parse (withAlertConfig product a)) as ->; [| done].
  unfold decoded; cbn. rewrite Hparse.
  destruct a as [| m | inner |]; try done. by destruct (Hnot inner).
Qed.

Lemma getStockStatus_serialised_witness :
  getStockStatus Sample.decode
    (withAlertConfig (Sample.product 1 12 Absent) (Raw (Sample.encode 12)))
  = getStockStatus Sample.decode
      (withAlertConfig (Sample.product 1 12 Absent) (Structured (Some 12))).
Proof.
  apply (getStockStatus_serialised Sample.decode (Sample.product 1 12 Absent)
           (Sample.encode 12) (Structured (Some 12))); [reflexivity |].
  intros inner. discriminate.
Defined.

(** X3. The message tells the statuses apart: two products get the same
    message exactly when they get the same status, the message reads
    Out of stock exactly when the quantity is 0, and the details modal
    shows its stock banner exactly when the message is not In stock. *)
Theorem getStockMessage_faithful :
  forall (JSON_parse : string -> option AlertConfig) (p1 p2 : Product),
    (getStockMessage JSON_parse p1 = getStockMessage JSON_parse p2
     <-> getStockStatus JSON_parse p1 = getStockStatus JSON_parse p2)
    /\ (text (getStockMessage JSON_parse p1) = "Out of stock" <-> quantity p1 = 0)
    /\ (showsStockBanner JSON_parse p1 = true
        <-> text (getStockMessage JSON_parse p1) <> "In stock").
Proof.
  intros JSON_parse p1 p2. unfold getStockMessage, showsStockBanner.
  pose proof (getStockStatus_range JSON_parse p1) as H1.
  pose proof (getStockStatus_range JSON_parse p2) as H2.
  assert (getStockStatus JSON_parse p1 = "out" <-> quantity p1 = 0) as Hout.
  { rewrite getStockStatus_decoded.
    destruct (Z.eqb_spec (quantity p1) 0); [tauto |].
    split; [| tauto]. repeat case_match; discriminate. }
  rewrite <- Hout.
  repeat (apply elem_of_cons in H1 as [-> | H1]); [| | | | by apply elem_of_nil in H1];
    (repeat (apply elem_of_cons in H2 as [-> | H2]); [| | | | by apply elem_of_nil in H2]);
    cbn; (split; [| split]; split); intros; first [reflexivity | discriminate | congruence].
Qed.

(** ** More on the filter pipeline *)

Section PipelineMore.

Variable JSON_parse : string -> option AlertConfig.

Lemma elem_of_applyFilters (catalog : list Product) (searchTerm : string)
    (filters : Filters) (product : Product) :
  product ∈ applyFilters JSON_parse catalog searchTerm filters
  <-> product ∈ catalog /\ passes JSON_parse searchTerm filters product = true.
Proof.
  rewrite applyFilters_passes, list_elem_of_filter, Is_true_true. tauto.
Qed.

Lemma passes_inv (searchTerm : string) (filters : Filters) (product : Product) :
  passes JSON_parse searchTerm filters product = true ->
  passesSearch searchTerm product = true
  /\ passesStock JSON_parse filters product = true
  /\ passesCategory filters product = true
  /\ passesSupplier filters product = true.
Proof.
  unfold passes. rewrite !andb_true_iff. tauto.
Qed.

(** [toLowerCase] changes nothing in a text it has produced. *)
Lemma toLowerCase_idempotent (s : string) :
  Js.toLowerCase (Js.toLowerCase s) = Js.toLowerCase s.
Proof.
  induction s as [| c s IH]; [done |]. cbn. rewrite IH. f_equal.
  unfold Js.lower_ascii.
  destruct ((65 <=? nat_of_ascii c)%nat && (nat_of_ascii c <=? 90)%nat) eqn:Hupper.
  - apply andb_true_iff in Hupper as [Hlo Hhi].
    apply Nat.leb_le in Hlo, Hhi.
    rewrite nat_ascii_embedding by lia.
    destruct (Nat.leb_spec (nat_of_ascii c + 32) 90) as [? | _]; [lia |].
    by rewrite andb_false_r.
  - by rewrite Hupper.
Qed.

End PipelineMore.

(** X4. The pipeline works product by product: filtering two catalogs put
    end to end gives the two filtered catalogs put end to end; so a record
    put in front of the catalog comes first in the result when it passes
    the criteria and leaves the rest of the result as it was. *)
Theorem applyFilters_app :
  forall (JSON_parse : string -> option AlertConfig) (front back : list Product)
         (searchTerm : string) (filters : Filters),
    applyFilters JSON_parse (front ++ back) searchTerm filters
    = applyFilters JSON_parse front searchTerm filters
      ++ applyFilters JSON_parse back searchTerm filters.
Proof.
  intros JSON_parse front back searchTerm filters.
  rewrite !applyFilters_passes. apply filter_app.
Qed.

(** X5. Whatever the search term and the other two filters, a product
    kept under [stock = out] is classified [out], one kept under
    [stock = low] is classified [low], and one kept under [stock = average]
    has a quantity strictly between 0 and 50. *)
Theorem stock_filter_sound :
  forall (JSON_parse : string -> option AlertConfig) (catalog : list Product)
         (searchTerm : string) (filters : Filters) (product : Product),
    product ∈ applyFilters JSON_parse catalog searchTerm filters ->
    (stock filters = "out" -> getStockStatus JSON_parse product = "out")
    /\ (stock filters = "low" -> getStockStatus JSON_parse product = "low")
    /\ (stock filters = "average" -> 0 < quantity product < 50).
Proof.
  intros JSON_parse catalog searchTerm filters product Hkept.
  apply elem_of_applyFilters in Hkept as [_ Hpass].
  apply passes_inv in Hpass as (_ & Hstock & _). unfold passesStock in Hstock.
  split; [| split]; intros Hf; rewrite Hf in Hstock; cbn in Hstock.
  - rewrite getStockStatus_decoded, Hstock. reflexivity.
  - rewrite isLowStock_decoded in Hstock. rewrite getStockStatus_decoded.
    destruct (decoded JSON_parse product) as [alertConfig |]; [| discriminate].
    apply andb_true_iff in Hstock as [Hle Hpos]. rewrite Hle.
    apply Z.ltb_lt in Hpos.
    destruct (Z.eqb_spec (quantity product) 0); [lia | reflexivity].
  - apply andb_true_iff in Hstock as [Hpos Hlt].
    apply Z.ltb_lt in Hpos, Hlt. lia.
Qed.

Lemma stock_filter_sound_witness :
  getStockStatus Sample.decode (Sample.product 2 3 (Structured (Some 5))) = "low".
Proof.
  refine (proj1 (proj2 (stock_filter_sound Sample.decode
            [ Sample.product 1 0 Absent; Sample.product 2 3 (Structured (Some 5)) ]
            "" (mkFilters "low" "all" "all")
            (Sample.product 2 3 (Structured (Some 5))) _)) _); [| reflexivity].
  vm_compute. apply list_elem_of_here.
Defined.

(** X6. On a product of the data model, the [average] stock filter keeps
    everything the classifier calls [average]; it is wider than the
    classifier, keeping too the [low] products under 50. *)
Theorem average_filter_covers_status :
  forall (JSON_parse : string -> option AlertConfig) (catalog : list Product)
         (product : Product),
    0 <= quantity product ->
    product ∈ catalog ->
    (getStockStatus JSON_parse product = "average" ->
       product ∈ applyFilters JSON_parse catalog "" (mkFilters "average" "all" "all"))
    /\ (getStockStatus JSON_parse product = "low" -> quantity product < 50 ->
          product ∈ applyFilters JSON_parse catalog "" (mkFilters "average" "all" "all")).
Proof.
  intros JSON_parse catalog product Hq Hin.
  assert (0 < quantity product < 50 ->
          product ∈ applyFilters JSON_parse catalog "" (mkFilters "average" "all" "all"))
    as Hband.
  { intros [Hpos Hlt]. apply elem_of_applyFilters. split; [done |].
    unfold passes, passesSearch, passesStock, passesCategory, passesSupplier; cbn.
    rewrite !andb_true_r. apply andb_true_iff. split; by apply Z.ltb_lt. }
  rewrite getStockStatus_decoded.
  destruct (Z.eqb_spec (quantity product) 0) as [Hz | Hnz].
  - split; discriminate.
  - split; [intros Hstatus | intros _ Hlt]; apply Hband; [| lia].
    destruct (decoded JSON_parse product); [| discriminate].
    destruct (Z.leb_spec (quantity product) (default 5 (min_quantity_of a)));
      [discriminate |].
    destruct (Z.ltb_spec (quantity product) 50); [lia | discriminate].
Qed.

Lemma average_filter_covers_status_witness :
  Sample.product 2 3 (Structured (Some 5))
  ∈ applyFilters Sample.decode [ Sample.product 2 3 (Structured (Some 5)) ]
      "" (mkFilters "average" "all" "all").
Proof.
  refine (proj2 (average_filter_covers_status Sample.decode
            [ Sample.product 2 3 (Structured (Some 5)) ]
            (Sample.product 2 3 (Structured (Some 5))) _ _) _ _);
    [vm_compute; discriminate | apply list_elem_of_here | reflexivity | reflexivity].
Defined.

(** X7. Criteria that switch every stage off keep the whole catalog: an
    empty search term, a stock filter other than low, out and average, and
    a category and a supplier that are empty or [all]. *)
Theorem applyFilters_neutral :
  forall (JSON_parse : string -> option AlertConfig) (catalog : list Product)
         (filters : Filters),
    stock filters <> "low" -> stock filters <> "out" -> stock filters <> "average" ->
    filter_category filters = "" \/ filter_category filters = "all" ->
    supplier filters = "" \/ supplier filters = "all" ->
    applyFilters JSON_parse catalog "" filters = catalog.
Proof.
  intros JSON_parse catalog filters Hlow Hout Havg Hcat Hsup.
  unfold applyFilters. cbn [Js.truthy String.eqb negb].
  apply String.eqb_neq in Hlow, Hout, Havg. rewrite Hlow, Hout, Havg.
  destruct Hcat as [-> | ->], Hsup as [-> | ->]; reflexivity.
Qed.

Lemma applyFilters_neutral_witness :
  applyFilters Sample.decode [ Sample.product 1 0 Absent; Sample.product 2 80 Absent ]
    "" (mkFilters "all" "all" "")
  = [ Sample.product 1 0 Absent; Sample.product 2 80 Absent ].
Proof.
  apply (applyFilters_neutral Sample.decode); cbn;
    first [discriminate | by left | by right].
Defined.

(** X8. A product with no name, no index, no description and no supplier
    matches no search term, so any search that is not empty drops it,
    whatever the filters. *)
Theorem search_drops_blank_product :
  forall (JSON_parse : string -> option AlertConfig) (catalog : list Product)
         (searchTerm : string) (filters : Filters) (product : Product),
    name product = None -> product_index product = None ->
    description product = None -> supplier_name product = None ->
    searchTerm <> "" ->
    matchesSearch searchTerm product = false
    /\ product ∉ applyFilters JSON_parse catalog searchTerm filters.
Proof.
  intros JSON_parse catalog searchTerm filters product Hn Hi Hd Hs Hterm.
  assert (matchesSearch searchTerm product = false) as Hno.
  { unfold matchesSearch. by rewrite Hn, Hi, Hd, Hs. }
  split; [exact Hno |].
  intros Hkept. apply elem_of_applyFilters in Hkept as [_ Hpass].
  apply passes_inv in Hpass as (Hsearch & _). unfold passesSearch in Hsearch.
  apply String.eqb_neq in Hterm. unfold Js.truthy in Hsearch.
  rewrite Hterm in Hsearch. cbn in Hsearch. congruence.
Qed.

Lemma search_drops_blank_product_witness :
  Sample.product 1 3 Absent
  ∉ applyFilters Sample.decode [ Sample.product 1 3 Absent ] "nail"
      (mkFilters "all" "all" "all").
Proof.
  apply (search_drops_blank_product Sample.decode [ Sample.product 1 3 Absent ] "nail"
           (mkFilters "all" "all" "all") (Sample.product 1 3 Absent));
    first [reflexivity | discriminate].
Defined.

(** X9. On name, description and supplier the search ignores the case of
    the ASCII letters of the term: for a product without an index, two
    terms with the same lower-case form match alike, and so do a term and
    its lower-case form. *)
Theorem search_ignores_term_case :
  forall (searchTerm other : string) (product : Product),
    product_index product = None ->
    (Js.toLowerCase searchTerm = Js.toLowerCase other ->
       matchesSearch searchTerm product = matchesSearch other product)
    /\ matchesSearch (Js.toLowerCase searchTerm) product
       = matchesSearch searchTerm product.
Proof.
  intros searchTerm other product Hindex.
  assert (forall a b, Js.toLowerCase a = Js.toLowerCase b ->
                      matchesSearch a product = matchesSearch b product) as Hsame.
  { intros a b Hab. unfold matchesSearch. by rewrite Hindex, Hab. }
  split; [apply Hsame |]. apply Hsame, toLowerCase_idempotent.
Qed.

Lemma search_ignores_term_case_witness :
  matchesSearch "NAILS" (mkProduct 1 None (Some "Steel nails") 3 Absent None None None)
  = matchesSearch "nails" (mkProduct 1 None (Some "Steel nails") 3 Absent None None None).
Proof.
  apply (search_ignores_term_case "NAILS" "nails"
           (mkProduct 1 None (Some "Steel nails") 3 Absent None None None));
    reflexivity.
Defined.

(** The index is matched as typed. *)
Example search_index_case :
  matchesSearch "ab" (mkProduct 1 (Some (IndexText "AB-1")) None 3 Absent None None None) = false
  /\ matchesSearch "AB" (mkProduct 1 (Some (IndexText "AB-1")) None 3 Absent None None None) = true
  /\ matchesSearch "12" (mkProduct 1 (Some (IndexNumber 3120)) None 3 Absent None None None) = true.
Proof. repeat split. Qed.

(** ** More on pagination *)

(** Whether the pagination bar is rendered, line 519. *)
Definition paginationShown (s : State) : bool :=
  productsPerPage s <? Z.of_nat (length (filteredProducts s)).

(** The two ends of the range the bar announces, lines 524-526. *)
Definition showingFrom (s : State) : Z := indexOfFirstProduct s + 1.

Definition showingTo (s : State) : Z :=
  Z.min (indexOfLastProduct s) (Z.of_nat (length (filteredProducts s))).

(** The number on the page button of index [i], lines 541-552. *)
Definition pageNum (s : State) (i : Z) : Z :=
  if totalPages s <=? 5 then i + 1
  else if currentPage s <=? 3 then i + 1
  else if totalPages s - 2 <=? currentPage s then totalPages s - 4 + i
  else currentPage s - 2 + i.

(** The numbers of the page buttons, left to right:
    [Array.from({ length: Math.min(5, totalPages) }, ...)]. *)
Definition pageButtons (s : State) : list Z :=
  map (pageNum s) (seqZ 0 (Z.min 5 (totalPages s))).

Lemma setCurrentPage_same (s : State) :
  applySet s (setCurrentPage (currentPage s)) = s.
Proof. by destruct s. Qed.

Lemma length_page (s : State) (page : Z) :
  0 < productsPerPage s -> 1 <= page ->
  Z.of_nat (length (currentProducts (applySet s (setCurrentPage page))))
  = Z.max 0 (Z.min (productsPerPage s)
                   (Z.of_nat (length (filteredProducts s))
                    - (page - 1) * productsPerPage s)).
Proof.
  intros Hpp Hpage. rewrite currentProducts_page by done.
  rewrite length_take, length_drop. nia.
Qed.

(** X10. With a positive page size, every page before the last one holds
    exactly a page size of products, the last one holds at least one and
    at most a page size, and every page after it is empty. *)
Theorem page_lengths :
  forall (s : State) (page : Z),
    0 < productsPerPage s -> 1 <= page ->
    let shown := currentProducts (applySet s (setCurrentPage page)) in
    (page < totalPages s -> Z.of_nat (length shown) = productsPerPage s)
    /\ (page = totalPages s -> 1 <= Z.of_nat (length shown) <= productsPerPage s)
    /\ (totalPages s < page -> shown = []).
Proof.
  intros s page Hpp Hpage shown.
  pose proof (totalPages_bounds s Hpp) as Hb.
  pose proof (length_page s page Hpp Hpage) as Hlen. fold shown in Hlen.
  split; [| split]; intros Hcase.
  - nia.
  - subst page. nia.
  - apply length_zero_iff_nil. nia.
Qed.

Lemma page_lengths_witness :
  let s := applySet initialState
             (setFilteredProducts (map (fun i => Sample.product i 1 Absent) (seqZ 1 23))) in
  Z.of_nat (length (currentProducts (applySet s (setCurrentPage 2)))) = productsPerPage s.
Proof.
  intros s. apply (page_lengths s 2); [vm_compute; reflexivity | lia |].
  vm_compute. reflexivity.
Defined.

(** X11. On a page from 1 to the page count, the range the bar announces
    is the rows on screen: it starts after the rows of the pages before,
    it does not run past the kept sequence, and it counts as many
    positions as there are rows. *)
Theorem showing_range_counts_rows :
  forall s : State,
    0 < productsPerPage s ->
    1 <= currentPage s <= totalPages s ->
    showingFrom s = (currentPage s - 1) * productsPerPage s + 1
    /\ showingFrom s <= showingTo s <= Z.of_nat (length (filteredProducts s))
    /\ showingTo s - showingFrom s + 1 = Z.of_nat (length (currentProducts s)).
Proof.
  intros s Hpp Hpage.
  pose proof (totalPages_bounds s Hpp) as Hb.
  pose proof (length_page s (currentPage s) Hpp ltac:(lia)) as Hlen.
  rewrite setCurrentPage_same in Hlen. rewrite Hlen.
  unfold showingFrom, showingTo, indexOfFirstProduct, indexOfLastProduct.
  nia.
Qed.

Lemma showing_range_counts_rows_witness :
  let s := applySets initialState
             [ setFilteredProducts (map (fun i => Sample.product i 1 Absent) (seqZ 1 23));
               setCurrentPage 3 ] in
  showingFrom s = 21 /\ showingTo s = 23.
Proof.
  intros s.
  destruct (showing_range_counts_rows s) as (Hfrom & _ & Hcount);
    [vm_compute; reflexivity | vm_compute; split; discriminate |].
  split; [by rewrite Hfrom |].
  replace (showingTo s) with (showingTo s - showingFrom s + 1 + showingFrom s - 1) by lia.
  rewrite Hcount, Hfrom. reflexivity.
Defined.

Lemma pageNum_offset (s : State) :
  exists first,
    (forall i, pageNum s i = first + i)
    /\ (1 <= currentPage s <= totalPages s ->
        1 <= first
        /\ first + Z.min 5 (totalPages s) - 1 <= totalPages s
        /\ first <= currentPage s < first + Z.min 5 (totalPages s)).
Proof.
  unfold pageNum.
  destruct (Z.leb_spec (totalPages s) 5);
    [| destruct (Z.leb_spec (currentPage s) 3);
       [| destruct (Z.leb_spec (totalPages s - 2) (currentPage s))]].
  - exists 1. split; [intros; lia | lia].
  - exists 1. split; [intros; lia | lia].
  - exists (totalPages s - 4). split; [intros; lia | lia].
  - exists (currentPage s - 2). split; [intros; lia | lia].
Qed.

(** X12. When the current page is one of the pages, the page buttons are
    consecutive numbers, as many as there are pages up to five, all of
    them pages, and the current page is one of them. *)
Theorem pageButtons_window :
  forall s : State,
    1 <= currentPage s <= totalPages s ->
    exists first,
      pageButtons s = seqZ first (Z.min 5 (totalPages s))
      /\ 1 <= first
      /\ first + Z.min 5 (totalPages s) - 1 <= totalPages s
      /\ currentPage s ∈ pageButtons s
      /\ (forall n, n ∈ pageButtons s -> 1 <= n <= totalPages s).
Proof.
  intros s Hpage.
  destruct (pageNum_offset s) as (first & Hnum & Hfirst).
  destruct (Hfirst Hpage) as (Hlo & Hhi & Hcur).
  assert (pageButtons s = seqZ first (Z.min 5 (totalPages s))) as Hwin.
  { unfold pageButtons.
    rewrite (map_ext (pageNum s) (Z.add first)) by (intros i; apply Hnum).
    change (map (Z.add first)) with (@fmap list _ Z Z (Z.add first)).
    rewrite fmap_add_seqZ. f_equal. lia. }
  exists first. rewrite Hwin.
  split; [reflexivity |]. split; [lia |]. split; [lia |]. split.
  - apply elem_of_seqZ. lia.
  - intros n Hn. apply elem_of_seqZ in Hn. lia.
Qed.

Lemma pageButtons_window_witness :
  let s := applySets initialState
             [ setFilteredProducts (map (fun i => Sample.product i 1 Absent) (seqZ 1 95));
               setCurrentPage 9 ] in
  currentPage s ∈ pageButtons s /\ pageButtons s = [6; 7; 8; 9; 10].
Proof.
  intros s.
  destruct (pageButtons_window s) as (first & _ & _ & _ & Hin & _);
    [vm_compute; split; discriminate |].
  split; [exact Hin | reflexivity].
Defined.

(** ** The controls of the main view *)

(** [.filter(Boolean)] on the values of a text field: the missing and the
    empty ones go. *)
Definition definedTexts (values : list (option string)) : list string :=
  omap (fun value => match value with
                     | Some v => if Js.truthy v then Some v else None
                     | None => None
                     end) values.

(** [[...new Set(values)]]: each value once, in the order of its first
    occurrence. *)
Definition uniqueValues (values : list string) : list string :=
  foldl (fun seen v => if bool_decide (v ∈ seen) then seen else seen ++ [v]) [] values.

(** The options of the category and supplier selects, lines 180-182. *)
Definition categories (s : State) : list string :=
  uniqueValues (definedTexts (map category (products s))).

Definition suppliers (s : State) : list string :=
  uniqueValues (definedTexts (map supplier_name (products s))).

(** The main view is rendered once loading is over and while [error] is
    falsy, lines 217-241. *)
Definition mainShown (s : State) : bool :=
  negb (loading s)
  && negb (match error s with Some message => Js.truthy message | None => false end).

(** What the operator can do on the search bar, the three selects, the
    empty-result row and the pagination bar. *)
Inductive Action : Type :=
| TypeSearch (value : string)
| ChooseStock (value : string)
| ChooseCategory (value : string)
| ChooseSupplier (value : string)
| ClearAllFilters
| PreviousPage
| PageButton (i : Z)
| NextPage.

(** The setter calls of each control, lines 279, 291, 307, 324, 380-383,
    534, 557 and 569. A control acts only if it is rendered and enabled,
    and a select gives one of its options. *)
Definition perform (s : State) (a : Action) : list SetState :=
  match a with
  | TypeSearch value => [ setSearchTerm value ]
  | ChooseStock value =>
      if bool_decide (value ∈ ["all"; "out"; "low"; "average"])
      then [ setFilters (mkFilters value (filter_category (filters s)) (supplier (filters s))) ]
      else []
  | ChooseCategory value =>
      if bool_decide (value ∈ "all" :: categories s)
         && (0 <? Z.of_nat (length (categories s)))
      then [ setFilters (mkFilters (stock (filters s)) value (supplier (filters s))) ]
      else []
  | ChooseSupplier value =>
      if bool_decide (value ∈ "all" :: suppliers s)
         && (0 <? Z.of_nat (length (suppliers s)))
      then [ setFilters (mkFilters (stock (filters s)) (filter_category (filters s)) value) ]
      else []
  | ClearAllFilters =>
      if Z.of_nat (length (currentProducts s)) =? 0
      then [ setSearchTerm ""; setFilters (mkFilters "all" "all" "all") ]
      else []
  | PreviousPage =>
      if paginationShown s && negb (currentPage s =? 1)
      then paginate (Z.max 1 (currentPage s - 1))
      else []
  | PageButton i =>
      if paginationShown s && (0 <=? i) && (i <? Z.min 5 (totalPages s))
      then paginate (pageNum s i)
      else []
  | NextPage =>
      if paginationShown s && negb (currentPage s =? totalPages s)
      then paginate (Z.min (totalPages s) (currentPage s + 1))
      else []
  end.

Section Session.

Variable JSON_parse : string -> option AlertConfig.

(** The setter calls of one handler run are committed, then the filtering
    effect runs if one of its dependencies changed. *)
Definition commit (s : State) (us : list SetState) : State :=
  let s' := applySets s us in
  if existsb (touchesDeps s) us then recompute JSON_parse s' else s'.

(** One action on the main view; nothing can be done while the loading or
    the error screen is shown. *)
Definition act (s : State) (a : Action) : State :=
  if mainShown s then commit s (perform s a) else s.

(** The derived view is in step with the catalog and the criteria, and the
    current page is a page (the first one when there is none). *)
Definition viewInvariant (s : State) : Prop :=
  productsPerPage s = 10
  /\ filteredProducts s
     = applyFilters JSON_parse (products s) (searchTerm s) (filters s)
  /\ 1 <= currentPage s <= Z.max 1 (totalPages s).

(** The states of a session: the mounted component, then requests that
    settle and actions of the operator, in any order. *)
Inductive reachable : State -> Prop :=
| reachable_mounted : reachable (mounted JSON_parse)
| reachable_Load s r : reachable s -> reachable (step JSON_parse s (Load r))
| reachable_Create s r : reachable s -> reachable (step JSON_parse s (Create r))
| reachable_Update s productId r :
    reachable s -> reachable (step JSON_parse s (Update productId r))
| reachable_Delete s productId confirmed r :
    reachable s -> reachable (step JSON_parse s (Delete productId confirmed r))
| reachable_Modal s e :
    reachable s -> (e = OpenCreate \/ e = CancelCreate \/ exists d, e = EditDraft d) ->
    reachable (step JSON_parse s e)
| reachable_act s a : reachable s -> reachable (act s a).

Lemma step_commit (s : State) (e : Event) :
  step JSON_parse s e = commit s (handle s e).
Proof. done. Qed.

End Session.

Section SessionFacts.

Variable JSON_parse : string -> option AlertConfig.

(** The cells the derived view is made of. *)
Definition viewFields (s : State)
    : list Product * list Product * Z * Z * string * Filters :=
  (products s, filteredProducts s, currentPage s, productsPerPage s,
   searchTerm s, filters s).

(** A setter call that leaves those cells alone. *)
Definition inert (s : State) (u : SetState) : bool :=
  match u with
  | setProducts _ | setFilteredProducts _ | setCurrentPage _ | setFilters _ => false
  | setSearchTerm v => String.eqb v (searchTerm s)
  | _ => true
  end.

Lemma viewInvariant_fields (s s' : State) :
  viewFields s' = viewFields s ->
  viewInvariant JSON_parse s -> viewInvariant JSON_parse s'.
Proof.
  destruct s, s'. unfold viewFields, viewInvariant, totalPages; cbn.
  intros [= -> -> -> -> -> ->]. tauto.
Qed.

Lemma productsPerPage_applySets (us : list SetState) :
  forall s, productsPerPage (applySets s us) = productsPerPage s.
Proof.
  induction us as [| u us IH]; intros s; [done |].
  unfold applySets in *. cbn [foldl]. rewrite IH. by destruct s, u.
Qed.

Lemma inert_applySets (s0 : State) (us : list SetState) :
  forallb (inert s0) us = true ->
  forall s, searchTerm s = searchTerm s0 ->
    viewFields (applySets s us) = viewFields s
    /\ existsb (touchesDeps s0) us = false.
Proof.
  induction us as [| u us IH]; intros Hall s Hterm; [done |].
  cbn in Hall. apply andb_true_iff in Hall as [Hu Hus].
  unfold applySets in *. cbn [foldl existsb].
  assert (viewFields (applySet s u) = viewFields s /\ touchesDeps s0 u = false)
    as [Hfields Htouch].
  { destruct s, u; try done; cbn in *.
    apply String.eqb_eq in Hu. subst. by rewrite String.eqb_refl. }
  destruct (IH Hus (applySet s u)) as [Hrest Hno].
  - injection Hfields as _ _ _ _ Hst _. congruence.
  - by rewrite Hrest, Hfields, Htouch, Hno.
Qed.

Lemma viewInvariant_recompute (s : State) :
  productsPerPage s = 10 -> viewInvariant JSON_parse (recompute JSON_parse s).
Proof.
  intros Hpp. destruct s; cbn in *. unfold viewInvariant; cbn.
  split; [done |]. split; [done |]. lia.
Qed.

(** Committing setter calls that either rerun the effect or are all inert
    keeps the invariant. *)
Lemma viewInvariant_commit (s : State) (us : list SetState) :
  viewInvariant JSON_parse s ->
  existsb (touchesDeps s) us = true \/ forallb (inert s) us = true ->
  viewInvariant JSON_parse (commit JSON_parse s us).
Proof.
  intros Hinv [Htouch | Hinert]; unfold commit.
  - rewrite Htouch. apply viewInvariant_recompute.
    rewrite productsPerPage_applySets. apply Hinv.
  - destruct (inert_applySets s us Hinert s eq_refl) as [Hfields ->].
    by apply (viewInvariant_fields s).
Qed.

Lemma viewInvariant_setCurrentPage (s : State) (page : Z) :
  viewInvariant JSON_parse s ->
  1 <= page <= Z.max 1 (totalPages s) ->
  viewInvariant JSON_parse (commit JSON_parse s (paginate page)).
Proof.
  destruct s. unfold viewInvariant, totalPages; cbn. tauto.
Qed.

Lemma paginationShown_pages (s : State) :
  productsPerPage s = 10 -> paginationShown s = true -> 2 <= totalPages s.
Proof.
  intros Hpp Hshown. apply Z.ltb_lt in Hshown.
  pose proof (totalPages_bounds s ltac:(lia)). nia.
Qed.

Lemma handle_shape (s : State) (e : Event) :
  (forall pageNumber, e <> SetPage pageNumber) ->
  existsb (touchesDeps s) (handle s e) = true
  \/ forallb (inert s) (handle s e) = true.
Proof.
  intros Hnot.
  destruct e as [r | t | f | n | r | productId r | productId confirmed r | | | d]; cbn.
  - destruct r as [m | ok [m | data]]; cbn; tauto.
  - destruct (String.eqb t (searchTerm s)); cbn; tauto.
  - tauto.
  - by destruct (Hnot n).
  - destruct r as [m | [|] [m | data]]; cbn; tauto.
  - destruct r as [m | [|] [m | data]]; cbn; tauto.
  - destruct confirmed, r as [m | [|] body]; cbn; tauto.
  - tauto.
  - tauto.
  - tauto.
Qed.

Lemma viewInvariant_step (s : State) (e : Event) :
  (forall pageNumber, e <> SetPage pageNumber) ->
  viewInvariant JSON_parse s -> viewInvariant JSON_parse (step JSON_parse s e).
Proof.
  intros Hnot Hinv. rewrite step_commit.
  apply viewInvariant_commit; [done |]. by apply handle_shape.
Qed.

Lemma viewInvariant_act (s : State) (a : Action) :
  viewInvariant JSON_parse s -> viewInvariant JSON_parse (act JSON_parse s a).
Proof.
  intros Hinv. unfold act. destruct (mainShown s); [| done].
  assert (viewInvariant JSON_parse (commit JSON_parse s [])) as Hnone.
  { apply viewInvariant_commit; [done | by right]. }
  destruct Hinv as (Hpp & Hview & Hpage).
  assert (viewInvariant JSON_parse s) as Hinv by done.
  destruct a as [value | value | value | value | | | i |]; cbn [perform].
  - apply viewInvariant_commit; [done |]. cbn.
    destruct (String.eqb value (searchTerm s)); cbn; tauto.
  - case_match; [| done]. apply viewInvariant_commit; [done | by left].
  - case_match; [| done]. apply viewInvariant_commit; [done | by left].
  - case_match; [| done]. apply viewInvariant_commit; [done | by left].
  - case_match; [| done]. apply viewInvariant_commit; [done | left].
    cbn. apply orb_true_r.
  - destruct (paginationShown s && negb (currentPage s =? 1)); [| done].
    apply viewInvariant_setCurrentPage; [done | lia].
  - destruct (paginationShown s) eqn:Hshown; [| done]. cbn [andb].
    destruct (Z.leb_spec 0 i); [| done].
    destruct (Z.ltb_spec i (Z.min 5 (totalPages s))); [| done]. cbn [andb].
    pose proof (paginationShown_pages s Hpp Hshown).
    destruct (pageNum_offset s) as (first & Hnum & Hfirst).
    apply viewInvariant_setCurrentPage; [done |]. rewrite Hnum. lia.
  - destruct (paginationShown s) eqn:Hshown; [| done]. cbn [andb].
    destruct (negb (currentPage s =? totalPages s)); [| done].
    pose proof (paginationShown_pages s Hpp Hshown).
    apply viewInvariant_setCurrentPage; [done | lia].
Qed.

Lemma reachable_viewInvariant (s : State) :
  reachable JSON_parse s -> viewInvariant JSON_parse s.
Proof.
  induction 1 as [| s r _ IH | s r _ IH | s productId r _ IH
                  | s productId confirmed r _ IH | s e _ IH He | s a _ IH].
  - by apply viewInvariant_recompute.
  - by apply viewInvariant_step.
  - by apply viewInvariant_step.
  - by apply viewInvariant_step.
  - by apply viewInvariant_step.
  - apply viewInvariant_step; [| done].
    intros pageNumber ->. destruct He as [? | [? | [d ?]]]; discriminate.
  - by apply viewInvariant_act.
Qed.

End SessionFacts.

Section SessionMore.

Variable JSON_parse : string -> option AlertConfig.

Lemma commit_paginate (s : State) (page : Z) :
  commit JSON_parse s (paginate page) = applySet s (setCurrentPage page).
Proof. done. Qed.

Lemma commit_rest (s : State) (us : list SetState) :
  error (commit JSON_parse s us) = error (applySets s us)
  /\ loading (commit JSON_parse s us) = loading (applySets s us)
  /\ productsPerPage (commit JSON_parse s us) = productsPerPage s.
Proof.
  unfold commit. destruct (existsb (touchesDeps s) us).
  - destruct (recompute_rest JSON_parse (applySets s us)) as (-> & -> & _ & _ & ->).
    by rewrite productsPerPage_applySets.
  - by rewrite productsPerPage_applySets.
Qed.

(** No control of the main view sets [error] or [loading]. *)
Lemma perform_rest (s : State) (a : Action) :
  error (applySets s (perform s a)) = error s
  /\ loading (applySets s (perform s a)) = loading s.
Proof.
  destruct a; cbn [perform]; repeat case_match; by destruct s.
Qed.

(** Every handler that sets [error] sets it to a message, and none sets
    [loading] to true. *)
Lemma handle_rest (s : State) (e : Event) :
  (is_Some (error s) -> is_Some (error (applySets s (handle s e))))
  /\ (loading s = false -> loading (applySets s (handle s e)) = false).
Proof.
  destruct e as [r | t | f | n | r | productId r | productId confirmed r | | | d];
    try (by destruct s).
  - destruct r as [m | ok [m | data]]; by destruct s.
  - destruct r as [m | [|] [m | data]]; by destruct s.
  - destruct r as [m | [|] [m | data]]; by destruct s.
  - destruct confirmed, r as [m | [|] body]; by destruct s.
Qed.

Lemma mainShown_error (s : State) (message : string) :
  error s = Some message -> message <> "" -> mainShown s = false.
Proof.
  intros Herr Hne. unfold mainShown. rewrite Herr.
  apply String.eqb_neq in Hne. unfold Js.truthy. rewrite Hne. apply andb_false_r.
Qed.

End SessionMore.

(** X13. With the pagination bar on screen and the current page among the
    pages, Previous and Next move by one page and stop at the first and at
    the last page, where they change nothing; neither touches the kept
    sequence. *)
Theorem previous_next_stay_in_range :
  forall (JSON_parse : string -> option AlertConfig) (s : State),
    mainShown s = true -> paginationShown s = true ->
    1 <= currentPage s <= totalPages s ->
    let previous := act JSON_parse s PreviousPage in
    let next := act JSON_parse s NextPage in
    currentPage previous = Z.max 1 (currentPage s - 1)
    /\ currentPage next = Z.min (totalPages s) (currentPage s + 1)
    /\ (currentPage s = 1 -> previous = s)
    /\ (currentPage s = totalPages s -> next = s)
    /\ filteredProducts previous = filteredProducts s
    /\ filteredProducts next = filteredProducts s.
Proof.
  intros JSON_parse s Hmain Hbar Hpage previous next. subst previous next.
  unfold act. rewrite Hmain. cbn [perform]. rewrite Hbar. cbn [andb].
  destruct (Z.eqb_spec (currentPage s) 1) as [Hfirst | Hfirst];
    destruct (Z.eqb_spec (currentPage s) (totalPages s)) as [Hlast | Hlast];
    cbn [negb]; rewrite ?commit_paginate;
    destruct s; cbn in *; repeat split; intros; first [lia | congruence].
Qed.

Lemma previous_next_stay_in_range_witness :
  let s := run Sample.decode (mounted Sample.decode)
             [ Load (Responded true (Json (map (fun i => Sample.product i 1 Absent) (seqZ 1 23))));
               SetPage 3 ] in
  currentPage (act Sample.decode s NextPage) = 3
  /\ currentPage (act Sample.decode s PreviousPage) = 2.
Proof.
  intros s.
  destruct (previous_next_stay_in_range Sample.decode s) as (Hprev & Hnext & _);
    [reflexivity | reflexivity | vm_compute; split; discriminate |].
  rewrite Hprev, Hnext. split; reflexivity.
Defined.

(** X14. In every state of a session (the mounted component, then any
    requests settling and any actions on the main view), the page size is
    10, the kept sequence is the pipeline's result on the current catalog,
    search term and filters, and the current page is between 1 and the
    page count, or is 1 when nothing is kept. *)
Theorem session_view_invariant :
  forall (JSON_parse : string -> option AlertConfig) (s : State),
    reachable JSON_parse s ->
    productsPerPage s = 10
    /\ filteredProducts s
       = applyFilters JSON_parse (products s) (searchTerm s) (filters s)
    /\ 1 <= currentPage s <= Z.max 1 (totalPages s).
Proof. intros JSON_parse s Hs. by apply reachable_viewInvariant. Qed.

(** Twenty-three products, the low filter chosen, then the next page asked
    for. *)
Definition sampleSession : State :=
  act Sample.decode
    (act Sample.decode
       (step Sample.decode (mounted Sample.decode)
          (Load (Responded true
                   (Json (map (fun i => Sample.product i 1 Absent) (seqZ 1 23))))))
       (ChooseStock "low"))
    NextPage.

Lemma sampleSession_reachable : reachable Sample.decode sampleSession.
Proof. repeat constructor. Qed.

Lemma session_view_invariant_witness :
  currentPage sampleSession = 2 /\ 1 <= currentPage sampleSession <= Z.max 1 (totalPages sampleSession).
Proof.
  split; [reflexivity |].
  apply (session_view_invariant Sample.decode sampleSession sampleSession_reachable).
Defined.

(** X15. In every state of a session, while some product is kept the
    table is not empty, and every row is a product of the catalog that
    passes the current criteria. *)
Theorem session_never_blank_page :
  forall (JSON_parse : string -> option AlertConfig) (s : State),
    reachable JSON_parse s ->
    (filteredProducts s <> [] -> currentProducts s <> [])
    /\ (forall product, product ∈ currentProducts s ->
          product ∈ products s
          /\ passes JSON_parse (searchTerm s) (filters s) product = true).
Proof.
  intros JSON_parse s Hs.
  destruct (reachable_viewInvariant JSON_parse s Hs) as (Hpp & Hview & Hpage).
  assert (0 < productsPerPage s) as Hpos by lia.
  pose proof (totalPages_bounds s Hpos) as Hb.
  pose proof (length_page s (currentPage s) Hpos ltac:(lia)) as Hlen.
  pose proof (currentProducts_page s (currentPage s) Hpos ltac:(lia)) as Hrows.
  rewrite setCurrentPage_same in Hlen, Hrows.
  split.
  - intros Hkept Hblank. rewrite Hblank in Hlen. cbn in Hlen.
    destruct (filteredProducts s); [done |]. cbn [length] in Hb, Hlen. nia.
  - intros product Hin. apply elem_of_applyFilters. rewrite <- Hview.
    rewrite Hrows in Hin.
    by apply subseteq_take, subseteq_drop in Hin.
Qed.

Lemma session_never_blank_page_witness :
  currentProducts sampleSession <> [].
Proof.
  apply (session_never_blank_page Sample.decode sampleSession sampleSession_reachable).
  vm_compute. discriminate.
Defined.

(** X16. [error] is never cleared: once it holds a message it holds one
    after every event and every action; and while it holds a message that
    is not empty the main view is not rendered, so no action changes
    anything. *)
Theorem error_is_sticky :
  forall (JSON_parse : string -> option AlertConfig) (s : State),
    is_Some (error s) ->
    (forall e, is_Some (error (step JSON_parse s e)))
    /\ (forall a, is_Some (error (act JSON_parse s a)))
    /\ (forall message a,
          error s = Some message -> message <> "" -> act JSON_parse s a = s).
Proof.
  intros JSON_parse s Herr. split; [| split].
  - intros e. rewrite step_commit.
    destruct (commit_rest JSON_parse s (handle s e)) as (-> & _).
    by apply handle_rest.
  - intros a. unfold act. destruct (mainShown s); [| done].
    destruct (commit_rest JSON_parse s (perform s a)) as (-> & _).
    by destruct (perform_rest s a) as [-> _].
  - intros message a Hmsg Hne. unfold act.
    by rewrite (mainShown_error s message).
Qed.

Lemma error_is_sticky_witness :
  let s := step Sample.decode (mounted Sample.decode) (Load (Rejected "Failed to fetch")) in
  act Sample.decode s (TypeSearch "nails") = s.
Proof.
  intros s.
  refine (proj2 (proj2 (error_is_sticky Sample.decode s _))
            "Failed to load products. Please try again later." (TypeSearch "nails") _ _);
    [by eexists | reflexivity | discriminate].
Defined.

(** X17. Once loading is over it never starts again, and the page size
    never changes, whatever event or action comes. *)
Theorem loading_never_restarts :
  forall (JSON_parse : string -> option AlertConfig) (s : State),
    (forall e, productsPerPage (step JSON_parse s e) = productsPerPage s)
    /\ (forall a, productsPerPage (act JSON_parse s a) = productsPerPage s)
    /\ (loading s = false ->
          (forall e, loading (step JSON_parse s e) = false)
          /\ (forall a, loading (act JSON_parse s a) = false)).
Proof.
  intros JSON_parse s. split; [| split].
  - intros e. rewrite step_commit. apply commit_rest.
  - intros a. unfold act. destruct (mainShown s); [apply commit_rest | done].
  - intros Hdone. split.
    + intros e. rewrite step_commit.
      destruct (commit_rest JSON_parse s (handle s e)) as (_ & -> & _).
      by apply handle_rest.
    + intros a. unfold act. destruct (mainShown s); [| done].
      destruct (commit_rest JSON_parse s (perform s a)) as (_ & -> & _).
      by destruct (perform_rest s a) as [_ ->].
Qed.

(** ** The options of the selects *)

Section Options.

Lemma uniqueValues_from (values seen : list string) :
  NoDup seen ->
  let result := foldl (fun seen v => if bool_decide (v ∈ seen) then seen else seen ++ [v])
                      seen values in
  NoDup result /\ forall x, x ∈ result <-> x ∈ seen \/ x ∈ values.
Proof.
  revert seen. induction values as [| v values IH]; intros seen Hseen; cbn.
  - split; [done |]. intros x. rewrite elem_of_nil. tauto.
  - case_bool_decide as Hv.
    + destruct (IH seen Hseen) as [Hnd Hmem]. split; [done |].
      intros x. rewrite Hmem, elem_of_cons.
      split; [tauto | intros [? | [-> | ?]]; tauto].
    + destruct (IH (seen ++ [v])) as [Hnd Hmem].
      { apply NoDup_app. repeat split; [done | | apply NoDup_singleton].
        intros x Hx Hxv. apply list_elem_of_singleton in Hxv. by subst. }
      split; [done |].
      intros x. rewrite Hmem, elem_of_app, list_elem_of_singleton, elem_of_cons. tauto.
Qed.

Lemma uniqueValues_spec (values : list string) :
  NoDup (uniqueValues values) /\ forall x, x ∈ uniqueValues values <-> x ∈ values.
Proof.
  destruct (uniqueValues_from values [] (NoDup_nil_2)) as [Hnd Hmem].
  split; [done |]. intros x. unfold uniqueValues. rewrite Hmem, elem_of_nil. tauto.
Qed.

Lemma elem_of_definedTexts (field : Product -> option string) (catalog : list Product)
    (x : string) :
  x ∈ definedTexts (map field catalog)
  <-> x <> "" /\ exists product, product ∈ catalog /\ field product = Some x.
Proof.
  unfold definedTexts. rewrite list_elem_of_omap. split.
  - intros (value & Hin & Hvalue).
    change (map field catalog) with (field <$> catalog) in Hin.
    apply list_elem_of_fmap in Hin as (product & -> & Hproduct).
    destruct (field product) as [v |] eqn:Hfield; [| discriminate].
    unfold Js.truthy in Hvalue. destruct (String.eqb_spec v ""); [discriminate |].
    injection Hvalue as ->. eauto.
  - intros (Hne & product & Hproduct & Hfield). exists (Some x). split.
    + change (map field catalog) with (field <$> catalog).
      apply list_elem_of_fmap. eauto.
    + unfold Js.truthy. by destruct (String.eqb_spec x "").
Qed.

End Options.

(** X18. The category select offers each category once; it offers exactly
    the categories, other than the empty text, that some product of the
    catalog has; and choosing an offered category other than [all], with
    no search term and no other filter, keeps at least one product. The
    supplier select does the same with suppliers. *)
Theorem select_options :
  forall (JSON_parse : string -> option AlertConfig) (s : State),
    (NoDup (categories s)
     /\ (forall c, c ∈ categories s
           <-> c <> "" /\ exists product, product ∈ products s /\ category product = Some c)
     /\ (forall c, c ∈ categories s -> c <> "all" ->
           exists product,
             product ∈ applyFilters JSON_parse (products s) "" (mkFilters "all" c "all")
             /\ category product = Some c))
    /\ (NoDup (suppliers s)
        /\ (forall c, c ∈ suppliers s
              <-> c <> "" /\ exists product,
                               product ∈ products s /\ supplier_name product = Some c)
        /\ (forall c, c ∈ suppliers s -> c <> "all" ->
              exists product,
                product ∈ applyFilters JSON_parse (products s) "" (mkFilters "all" "all" c)
                /\ supplier_name product = Some c)).
Proof.
  intros JSON_parse s.
  assert (forall c, c ∈ categories s
            <-> c <> "" /\ exists product, product ∈ products s /\ category product = Some c)
    as Hcat.
  { intros c. unfold categories.
    destruct (uniqueValues_spec (definedTexts (map category (products s)))) as [_ ->].
    apply elem_of_definedTexts. }
  assert (forall c, c ∈ suppliers s
            <-> c <> "" /\ exists product,
                             product ∈ products s /\ supplier_name product = Some c)
    as Hsup.
  { intros c. unfold suppliers.
    destruct (uniqueValues_spec (definedTexts (map supplier_name (products s)))) as [_ ->].
    apply elem_of_definedTexts. }
  split; (split; [apply uniqueValues_spec |]); (split; [done |]).
  - intros c Hc Hall. apply Hcat in Hc as (Hne & product & Hin & Hfield).
    exists product. split; [| done]. apply elem_of_applyFilters. split; [done |].
    unfold passes, passesSearch, passesStock, passesCategory, passesSupplier; cbn.
    apply String.eqb_neq in Hne, Hall. unfold Js.truthy. rewrite Hne, Hall, Hfield. cbn.
    by rewrite String.eqb_refl.
  - intros c Hc Hall. apply Hsup in Hc as (Hne & product & Hin & Hfield).
    exists product. split; [| done]. apply elem_of_applyFilters. split; [done |].
    unfold passes, passesSearch, passesStock, passesCategory, passesSupplier; cbn.
    apply String.eqb_neq in Hne, Hall. unfold Js.truthy. rewrite Hne, Hall, Hfield. cbn.
    by rewrite String.eqb_refl.
Qed.

(** Options come in the order of first occurrence; a product without a
    category, or with an empty one, adds none. *)
Example categories_order :
  categories
    (applySet initialState
       (setProducts
          [ mkProduct 1 None None 1 Absent None None (Some "tools");
            mkProduct 2 None None 1 Absent None None None;
            mkProduct 3 None None 1 Absent None None (Some "paint");
            mkProduct 4 None None 1 Absent None None (Some "");
            mkProduct 5 None None 1 Absent None None (Some "tools") ]))
  = ["tools"; "paint"].
Proof. reflexivity. Qed.

(** ** Reconciliation with the store *)

Section Reconciliation.

Variable JSON_parse : string -> option AlertConfig.

Lemma step_Update_success (s : State) (productId : Z) (data : Product) :
  step JSON_parse s (Update productId (Responded true (Json data)))
  = recompute JSON_parse
      (applySets s [ setProducts (map (fun p => if id p =? productId then data else p)
                                      (products s));
                     setEditingProduct None ]).
Proof. done. Qed.

Lemma step_Update_failure (s : State) (productId : Z) (r : Fetched Product) :
  (forall data, r <> Responded true (Json data)) ->
  exists message,
    step JSON_parse s (Update productId r) = applySet s (setError (Some message)).
Proof.
  intros Hfail. destruct r as [m | [|] [m | data]]; try by eexists.
  by destruct (Hfail data).
Qed.

Lemma step_Delete_failure (s : State) (productId : Z) (r : Fetched unit) :
  (forall body, r <> Responded true body) ->
  exists message,
    step JSON_parse s (Delete productId true r) = applySet s (setError (Some message)).
Proof.
  intros Hfail. destruct r as [m | [|] body]; try by eexists.
  by destruct (Hfail body).
Qed.

Lemma filter_all_pass (P : Product -> bool) (l : list Product) :
  (forall p, p ∈ l -> P p = true) -> filter (fun p => P p) l = l.
Proof.
  induction l as [| x l IH]; intros Hall; [done |].
  rewrite filter_cons_True.
  - f_equal. apply IH. intros p Hp. apply Hall. by right.
  - apply Is_true_true, Hall. by left.
Qed.

Lemma elem_of_ids_filter (P : Product -> bool) (l : list Product) (i : Z) :
  i ∈ map id (filter (fun p => P p) l) -> i ∈ map id l.
Proof.
  change (map id) with (@fmap list _ Product Z id).
  rewrite !list_elem_of_fmap. intros (p & -> & Hp).
  apply list_elem_of_filter in Hp as [_ Hp]. eauto.
Qed.

Lemma NoDup_ids_filter (P : Product -> bool) (l : list Product) :
  NoDup (map id l) -> NoDup (map id (filter (fun p => P p) l)).
Proof.
  induction l as [| x l IH]; [done |]. cbn [map].
  rewrite NoDup_cons. intros [Hfresh Hnd]. rewrite filter_cons.
  case_decide; [| by apply IH]. cbn [map]. apply NoDup_cons.
  split; [| by apply IH]. intros Hin. by apply Hfresh, (elem_of_ids_filter P).
Qed.

Lemma map_replace_ids (l : list Product) (productId : Z) (data : Product) :
  id data = productId ->
  map id (map (fun p => if id p =? productId then data else p) l) = map id l.
Proof.
  intros Hid. rewrite map_map. apply map_ext. intros p.
  destruct (Z.eqb_spec (id p) productId); congruence.
Qed.

Lemma map_replace_absent (l : list Product) (productId : Z) (data : Product) :
  (forall p, p ∈ l -> id p <> productId) ->
  map (fun p => if id p =? productId then data else p) l = l.
Proof.
  induction l as [| x l IH]; intros Habsent; [done |]. cbn.
  destruct (Z.eqb_spec (id x) productId) as [Heq | _].
  - destruct (Habsent x); [by left | done].
  - f_equal. apply IH. intros p Hp. apply Habsent. by right.
Qed.

Lemma applyFilters_cons (data : Product) (catalog : list Product)
    (searchTerm : string) (filters : Filters) :
  applyFilters JSON_parse (data :: catalog) searchTerm filters
  = (if passes JSON_parse searchTerm filters data then [data] else [])
    ++ applyFilters JSON_parse catalog searchTerm filters.
Proof.
  rewrite !applyFilters_passes, filter_cons.
  destruct (passes JSON_parse searchTerm filters data); by case_decide.
Qed.

End Reconciliation.

(** X19. A successful update keeps the length and the order of the
    catalog: at each position the entry stays, unless it has the updated
    id, in which case the returned record takes its place. When that
    record carries the updated id the ids of the catalog are unchanged;
    when no entry has the id the catalog is unchanged. The inline edit is
    closed and the derived view recomputed from page 1. *)
Theorem update_success_replaces_in_place :
  forall (JSON_parse : string -> option AlertConfig) (s : State) (productId : Z)
         (data : Product),
    let s' := step JSON_parse s (Update productId (Responded true (Json data))) in
    length (products s') = length (products s)
    /\ (forall (i : nat) (p : Product),
          products s !! i = Some p ->
          products s' !! i = Some (if id p =? productId then data else p))
    /\ (id data = productId -> map id (products s') = map id (products s))
    /\ ((forall p, p ∈ products s -> id p <> productId) -> products s' = products s)
    /\ editingProduct s' = None
    /\ currentPage s' = 1
    /\ filteredProducts s'
       = applyFilters JSON_parse (products s') (searchTerm s) (filters s)
    /\ error s' = error s.
Proof.
  intros JSON_parse s productId data s'. subst s'. rewrite step_Update_success.
  destruct s as [ps fps ld er cp pp st fl sm vp ep np]; cbn.
  split; [apply length_map |]. split.
  - intros i p Hp.
    change (map (fun p0 => if id p0 =? productId then data else p0) ps)
      with ((fun p0 => if id p0 =? productId then data else p0) <$> ps).
    by rewrite list_lookup_fmap, Hp.
  - split; [by apply map_replace_ids |].
    split; [by apply map_replace_absent |]. done.
Qed.

(** X20. When an update fails (no response, a failure status, or a body
    that is not JSON) only [error] changes: the catalog, the derived view
    and the page stay, and the inline edit stays open with its values. *)
Theorem update_failure_keeps_edit :
  forall (JSON_parse : string -> option AlertConfig) (s : State) (productId : Z)
         (r : Fetched Product),
    (forall data, r <> Responded true (Json data)) ->
    let s' := step JSON_parse s (Update productId r) in
    products s' = products s
    /\ filteredProducts s' = filteredProducts s
    /\ currentPage s' = currentPage s
    /\ editingProduct s' = editingProduct s
    /\ is_Some (error s').
Proof.
  intros JSON_parse s productId r Hfail s'. subst s'.
  destruct (step_Update_failure JSON_parse s productId r Hfail) as [message ->].
  destruct s; cbn. by repeat split.
Qed.

Lemma update_failure_keeps_edit_witness :
  let s := applySet (mounted Sample.decode)
             (setEditingProduct (Some (Sample.product 1 4 Absent))) in
  editingProduct (step Sample.decode s (Update 1 (Responded false (NotJson "Unexpected token"))))
  = Some (Sample.product 1 4 Absent).
Proof.
  intros s.
  apply (update_failure_keeps_edit Sample.decode s 1
           (Responded false (NotJson "Unexpected token"))).
  intros data. discriminate.
Defined.

(** X21. A deletion the operator does not confirm changes nothing at all;
    a confirmed deletion that fails (no response or a failure status)
    leaves the catalog, the derived view and the page as they were and
    sets [error]. *)
Theorem delete_declined_or_failed :
  forall (JSON_parse : string -> option AlertConfig) (s : State) (productId : Z)
         (r : Fetched unit),
    step JSON_parse s (Delete productId false r) = s
    /\ ((forall body, r <> Responded true body) ->
          let s' := step JSON_parse s (Delete productId true r) in
          products s' = products s
          /\ filteredProducts s' = filteredProducts s
          /\ currentPage s' = currentPage s
          /\ is_Some (error s')).
Proof.
  intros JSON_parse s productId r. split; [done |].
  intros Hfail s'. subst s'.
  destruct (step_Delete_failure JSON_parse s productId r Hfail) as [message ->].
  destruct s; cbn. by repeat split.
Qed.

(** X22. Creating a record whose id is new to the catalog and then
    deleting that id gives the catalog back, and the derived view is the
    pipeline's result on it. *)
Theorem create_then_delete_restores :
  forall (JSON_parse : string -> option AlertConfig) (s : State) (data : Product)
         (body : Body unit),
    (forall p, p ∈ products s -> id p <> id data) ->
    let created := step JSON_parse s (Create (Responded true (Json data))) in
    let deleted := step JSON_parse created (Delete (id data) true (Responded true body)) in
    products created = data :: products s
    /\ products deleted = products s
    /\ filteredProducts deleted
       = applyFilters JSON_parse (products s) (searchTerm s) (filters s).
Proof.
  intros JSON_parse s data body Hnew created deleted. subst created deleted.
  rewrite step_Delete_success, step_Create_success.
  assert (filter (fun p => negb (id p =? id data)) (data :: products s) = products s)
    as Hback.
  { rewrite filter_cons_False by (rewrite Z.eqb_refl; cbn; tauto).
    apply filter_all_pass. intros p Hp. apply negb_true_iff, Z.eqb_neq. by apply Hnew. }
  destruct s as [ps fps ld er cp pp st fl sm vp ep np]; cbn in *.
  rewrite Hback. done.
Qed.

Lemma create_then_delete_restores_witness :
  let s := step Sample.decode (mounted Sample.decode)
             (Load (Responded true (Json [ Sample.product 1 4 Absent ]))) in
  products (step Sample.decode
              (step Sample.decode s (Create (Responded true (Json (Sample.product 2 9 Absent)))))
              (Delete 2 true (Responded true (Json tt))))
  = products s.
Proof.
  intros s.
  apply (create_then_delete_restores Sample.decode s (Sample.product 2 9 Absent) (Json tt)).
  intros p Hp. apply list_elem_of_singleton in Hp. subst p. discriminate.
Defined.

(** X23. If no two entries of the catalog share an id, none do after a
    successful deletion, after a successful update whose returned record
    carries the updated id, and after a successful creation whose returned
    id is new to the catalog. *)
Theorem unique_ids_preserved :
  forall (JSON_parse : string -> option AlertConfig) (s : State),
    NoDup (map id (products s)) ->
    (forall productId body,
       NoDup (map id (products
         (step JSON_parse s (Delete productId true (Responded true body))))))
    /\ (forall productId data,
          id data = productId ->
          NoDup (map id (products
            (step JSON_parse s (Update productId (Responded true (Json data)))))))
    /\ (forall data,
          (forall p, p ∈ products s -> id p <> id data) ->
          NoDup (map id (products
            (step JSON_parse s (Create (Responded true (Json data))))))).
Proof.
  intros JSON_parse s Hunique. split; [| split].
  - intros productId body. rewrite step_Delete_success.
    destruct s; cbn in *. by apply NoDup_ids_filter.
  - intros productId data Hid. rewrite step_Update_success.
    destruct s; cbn in *. by rewrite map_replace_ids.
  - intros data Hnew. rewrite step_Create_success.
    destruct s as [ps fps ld er cp pp st fl sm vp ep np]; cbn in *.
    apply NoDup_cons. split; [| done].
    change (map id ps) with (id <$> ps). rewrite list_elem_of_fmap.
    intros (p & Hid & Hp). by apply (Hnew p Hp).
Qed.

Lemma unique_ids_preserved_witness :
  let s := step Sample.decode (mounted Sample.decode)
             (Load (Responded true (Json [ Sample.product 1 4 Absent; Sample.product 2 9 Absent ]))) in
  NoDup (map id (products (step Sample.decode s (Delete 1 true (Responded true (Json tt)))))).
Proof.
  intros s. apply (unique_ids_preserved Sample.decode s).
  vm_compute. repeat constructor; rewrite ?elem_of_cons, ?elem_of_nil; intros H;
    repeat destruct H as [H | H]; try discriminate; done.
Defined.

(** Creation itself does not look at the ids: a returned record whose id
    is already in the catalog is put in front all the same. *)
Example create_duplicate_id :
  let s := step Sample.decode (mounted Sample.decode)
             (Load (Responded true (Json [ Sample.product 1 4 Absent ]))) in
  map id (products (step Sample.decode s
                      (Create (Responded true (Json (Sample.product 1 9 Absent))))))
  = [1; 1].
Proof. reflexivity. Qed.

(** X24. When the derived view is in step with the catalog, a successful
    creation puts the returned record at the head of the kept sequence if
    it passes the current criteria, leaves it out otherwise, keeps the rest
    of the kept sequence as it was, and shows page 1. *)
Theorem create_success_updates_view :
  forall (JSON_parse : string -> option AlertConfig) (s : State) (data : Product),
    filteredProducts s
    = applyFilters JSON_parse (products s) (searchTerm s) (filters s) ->
    let s' := step JSON_parse s (Create (Responded true (Json data))) in
    filteredProducts s'
    = (if passes JSON_parse (searchTerm s) (filters s) data then [data] else [])
      ++ filteredProducts s
    /\ currentPage s' = 1.
Proof.
  intros JSON_parse s data Hview s'. subst s'. rewrite step_Create_success.
  rewrite Hview. destruct s; cbn. split; [apply applyFilters_cons | done].
Qed.

Lemma create_success_updates_view_witness :
  let s := act Sample.decode
             (step Sample.decode (mounted Sample.decode)
                (Load (Responded true (Json [ Sample.product 1 0 Absent ]))))
             (ChooseStock "out") in
  map id (filteredProducts
            (step Sample.decode s (Create (Responded true (Json (Sample.product 2 9 Absent))))))
  = [1].
Proof.
  intros s.
  destruct (create_success_updates_view Sample.decode s (Sample.product 2 9 Absent))
    as [Hview _]; [reflexivity |].
  rewrite Hview. reflexivity.
Defined.

(** ** Edge cases of the page slice and the empty-result row *)

Lemma slice_sublist {A : Type} (xs : list A) (start end_ : Z) :
  sublist (Js.slice xs start end_) xs.
Proof.
  unfold Js.slice. etransitivity; [apply sublist_take | apply sublist_drop].
Qed.

Lemma slice_length {A : Type} (xs : list A) (start end_ : Z) :
  start <= end_ ->
  Z.of_nat (length (Js.slice xs start end_)) <= end_ - start.
Proof.
  intros Horder. unfold Js.slice. rewrite length_take, length_drop.
  destruct (Z.ltb_spec start 0), (Z.ltb_spec end_ 0); lia.
Qed.

(** X25. Whatever the current page (zero, negative or past the end) and
    whatever the page size, the rows on screen are a part of the kept
    sequence, in its order; with a page size that is not negative there
    are at most a page size of them, and page 0 shows none. *)
Theorem currentProducts_any_page :
  forall s : State,
    sublist (currentProducts s) (filteredProducts s)
    /\ (0 <= productsPerPage s ->
          Z.of_nat (length (currentProducts s)) <= productsPerPage s)
    /\ (0 <= productsPerPage s -> currentPage s = 0 -> currentProducts s = []).
Proof.
  intros s. unfold currentProducts, indexOfFirstProduct, indexOfLastProduct.
  split; [apply slice_sublist |]. split.
  - intros Hpp.
    pose proof (slice_length (filteredProducts s)
                  (currentPage s * productsPerPage s - productsPerPage s)
                  (currentPage s * productsPerPage s) ltac:(lia)).
    lia.
  - intros Hpp ->. apply length_zero_iff_nil.
    unfold Js.slice. rewrite length_take, length_drop.
    destruct (Z.ltb_spec (0 * productsPerPage s - productsPerPage s) 0),
             (Z.ltb_spec (0 * productsPerPage s) 0); lia.
Qed.

(** A negative page counts from the end of the kept sequence. *)
Example negative_page_rows :
  let s := applySets initialState
             [ setFilteredProducts (map (fun i => Sample.product i 1 Absent) (seqZ 1 25));
               setCurrentPage (-1) ] in
  map id (currentProducts s) = [6; 7; 8; 9; 10; 11; 12; 13; 14; 15].
Proof. reflexivity. Qed.

(** X26. On the main view with no row on screen, Clear all filters
    empties the search term, sets the three filters to [all], and the
    derived view becomes the whole catalog from page 1; with rows on
    screen the control is not there and nothing changes. *)
Theorem clear_all_filters_shows_catalog :
  forall (JSON_parse : string -> option AlertConfig) (s : State),
    mainShown s = true ->
    let s' := act JSON_parse s ClearAllFilters in
    (currentProducts s = [] ->
       searchTerm s' = ""
       /\ filters s' = mkFilters "all" "all" "all"
       /\ filteredProducts s' = products s
       /\ products s' = products s
       /\ currentPage s' = 1)
    /\ (currentProducts s <> [] -> s' = s).
Proof.
  intros JSON_parse s Hmain s'. subst s'. unfold act. rewrite Hmain. cbn [perform].
  split.
  - intros ->. change (Z.of_nat (length (@nil Product)) =? 0) with true. cbv iota.
    unfold commit. cbn [existsb touchesDeps orb]. rewrite orb_true_r.
    by destruct s.
  - intros Hrows. destruct (currentProducts s) as [| row rows]; [done |].
    cbn [length]. by destruct (Z.eqb_spec (Z.of_nat (S (length rows))) 0); [lia |].
Qed.

Lemma clear_all_filters_shows_catalog_witness :
  let s := act Sample.decode
             (step Sample.decode (mounted Sample.decode)
                (Load (Responded true (Json [ Sample.product 1 4 Absent ]))))
             (ChooseStock "out") in
  filteredProducts s = []
  /\ map id (filteredProducts (act Sample.decode s ClearAllFilters)) = [1].
Proof.
  intros s. split; [reflexivity |].
  destruct (clear_all_filters_shows_catalog Sample.decode s) as [Hclear _];
    [reflexivity |].
  destruct Hclear as (_ & _ & -> & _); reflexivity.
Defined.
